(** * godo: a shallow embedding of the DigitalOcean v1 API client

    The client in [godo.go], the droplet operations, the domain operations
    and [images.go] all follow one scheme: validate the arguments, format an
    endpoint string with [fmt.Sprintf], hand it to [doGet], which appends the
    credentials, calls [http.Get], reads the body and decodes the JSON
    envelope, and then branch on the envelope's status.

    The embedding keeps that shape.  Strings are [string], Go's [int] is [Z]
    (no arithmetic is done on it, only comparison with zero and decimal
    printing), a pointer-and-error result is a pair of options, and the effects
    ([http.Get], [panic]) live in a small monad that records every URL handed
    to the transport.  [net/http], [io/ioutil], [encoding/json] and [net] are
    not part of the repository: the transport, the decoder and [IP.String]
    are parameters. *)

From Stdlib Require Import ZArith String Ascii List DecimalString Bool Lia.
From Stdlib Require PrimFloat.
Import ListNotations.

Open Scope string_scope.
Open Scope Z_scope.

(** ** Go values behind [interface{}] *)

(** A value passed as [interface{}].  The program only ever distinguishes the
    dynamic types [int] and [string] (type switches in [ResizeDroplet] and
    [images.go]); every other dynamic type is represented by its type name
    and by how package [fmt] renders the value under each verb. *)
Inductive GoValue : Type :=
| VInt (n : Z)
| VString (s : string)
| VOther (ty : string) (render : ascii -> string).

(** Go's [error] interface, as the text its [Error()] method returns. *)
Record error : Type := errorString { Error : string }.

(** ** Package [fmt], for the verbs the program uses *)

Module fmt.

(** Decimal rendering of an [int], as [%d] prints it. *)
Definition itoa (n : Z) : string := NilZero.string_of_int (Z.to_int n).

(** [reflect.TypeOf(a).String()] *)
Definition typeName (a : GoValue) : string :=
  match a with
  | VInt _ => "int"
  | VString _ => "string"
  | VOther ty _ => ty
  end.

(** The operand under [%v]. *)
Definition printValue (a : GoValue) : string :=
  match a with
  | VInt n => itoa n
  | VString s => s
  | VOther _ render => render "v"%char
  end.

(** [%!verb(type=value)]: what [fmt] writes for a verb that does not fit
    the operand. *)
Definition badVerb (verb : ascii) (a : GoValue) : string :=
  "%!" ++ String verb ("(" ++ typeName a ++ "=" ++ printValue a ++ ")").

(** One operand under one verb.  The program's format strings contain
    only [%d], [%s] and [%v], without flags or widths; on [int] and
    [string] operands any other verb is rendered as a bad verb. *)
Definition printArg (verb : ascii) (a : GoValue) : string :=
  match a with
  | VOther _ render => render verb
  | VInt n =>
      if (verb =? "d")%char || (verb =? "v")%char then itoa n
      else badVerb verb a
  | VString s =>
      if (verb =? "s")%char || (verb =? "v")%char then s
      else badVerb verb a
  end.

(** [type=value] pairs of the operands no verb consumed. *)
Fixpoint extraArgs (args : list GoValue) : string :=
  match args with
  | [] => ""
  | [a] => typeName a ++ "=" ++ printValue a
  | a :: (_ :: _) as rest =>
      typeName a ++ "=" ++ printValue a ++ ", " ++ extraArgs rest
  end.

(** [doPrintf]: literal text is copied, [%%] is a percent sign, a verb
    consumes the next operand or reports [(MISSING)], a trailing [%]
    reports [(NOVERB)], and operands left over at the end are reported
    as [%!(EXTRA ...)]. *)
Fixpoint Sprintf (format : string) (args : list GoValue) : string :=
  match format with
  | EmptyString =>
      match args with
      | [] => ""
      | _ :: _ => "%!(EXTRA " ++ extraArgs args ++ ")"
      end
  | String c rest =>
      if (c =? "%")%char then
        match rest with
        | EmptyString =>
            "%!(NOVERB)" ++
            match args with
            | [] => ""
            | _ :: _ => "%!(EXTRA " ++ extraArgs args ++ ")"
            end
        | String verb rest' =>
            if (verb =? "%")%char then String "%" (Sprintf rest' args)
            else
              match args with
              | [] => "%!" ++ String verb ("(MISSING)" ++ Sprintf rest' [])
              | a :: args' => printArg verb a ++ Sprintf rest' args'
              end
        end
      else String c (Sprintf rest args)
  end.

Definition Errorf (format : string) (args : list GoValue) : error :=
  errorString (Sprintf format args).

End fmt.

(** ** Package [strings] *)

Module strings.

(** [strings.Contains(s, substr)] *)
Fixpoint Contains (s substr : string) : bool :=
  prefix substr s ||
  match s with
  | EmptyString => false
  | String _ s' => Contains s' substr
  end.

(** [strings.Join(elems, sep)] *)
Definition Join (elems : list string) (sep : string) : string :=
  String.concat sep elems.

End strings.

(** ** Zero values *)

(** What [var x T] holds before anything is stored in it. *)
Class Zero (T : Type) : Type := zero : T.

#[global] Instance Zero_int : Zero Z := 0.
#[global] Instance Zero_string : Zero string := "".
#[global] Instance Zero_bool : Zero bool := false.
#[global] Instance Zero_float64 : Zero PrimFloat.float := PrimFloat.zero.
#[global] Instance Zero_unit : Zero unit := tt.
#[global] Instance Zero_slice {T : Type} : Zero (list T) := [].

(** ** The data model ([godo.go], droplets, domains, [images.go]) *)

(** [type Status string] *)
Definition Status : Type := string.

Definition StatusOK : Status := "OK".
Definition StatusError : Status := "ERROR".
Definition APIURL : string := "https://api.digitalocean.com/v1".
Definition EndpointDroplets : string := "/droplets".

Record Client : Type := NewClient { ClientID : string; APIKey : string }.

Module time.
(** [time.Time], as its wall and monotonic readings; the zero [Time] has
    both zero. *)
Record Time : Type := mk { wall : Z; ext : Z }.
End time.

#[global] Instance Zero_Time : Zero time.Time := time.mk 0 0.

Module net.
(** [type IP []byte] *)
Definition IP : Type := list Byte.byte.
End net.

Module Event.
Record t : Type := mk {
  ID : string;
  ActionStatus : string;
  DropletID : Z;
  EventTypeID : Z;
  Percentage : PrimFloat.float }.
End Event.

Module Region.
Record t : Type := mk { ID : Z; Name : string; Slug : string }.
End Region.

Module Size.
Record t : Type := mk {
  ID : Z;
  Name : string;
  Slug : string;
  Memory : Z;
  CPU : Z;
  Disk : Z;
  CostPerHour : PrimFloat.float;
  CostPerMonth : string }.
End Size.

Module Droplet.
Record t : Type := mk {
  ID : Z;
  Name : string;
  ImageID : Z;
  SizeID : Z;
  RegionID : Z;
  BackupsActive : bool;
  IPAdress : string;
  PrivateIPAddress : string;
  Locked : bool;
  Status : string;
  CreatedAt : time.Time }.
End Droplet.

Module NewDroplet.
Record t : Type := mk {
  Name : string;
  SizeID : Z;
  SizeSlug : string;
  ImageID : Z;
  ImageSlug : string;
  RegionID : Z;
  RegionSlug : string;
  SSHKeyIDs : list string;
  PrivateNetworking : bool;
  BackupsEnabled : bool }.
End NewDroplet.

Module PartialDroplet.
Record t : Type := mk {
  ID : Z;
  Name : string;
  ImageID : Z;
  SizeID : Z;
  EventID : Z }.
End PartialDroplet.

Module Domain.
Record t : Type := mk {
  ID : Z;
  Name : string;
  TTL : Z;
  LiveZoneFile : string;
  Error : string;
  ZoneFileWithError : string }.
End Domain.

Module PartialDomain.
Record t : Type := mk { ID : Z; Name : string }.
End PartialDomain.

Module DomainRecord.
Record t : Type := mk {
  ID : Z;
  DomainID : Z;
  RecordType : string;
  Name : string;
  Data : string;
  Priority : Z;
  Port : Z;
  Weight : Z }.
End DomainRecord.

Module Image.
Record t : Type := mk {
  ID : Z;
  Name : string;
  Distribution : string;
  Slug : string;
  Public : bool;
  RegionIDs : list Z;
  RegionSlugs : list string }.
End Image.

#[global] Instance Zero_Event : Zero Event.t := Event.mk zero zero zero zero zero.
#[global] Instance Zero_Region : Zero Region.t := Region.mk zero zero zero.
#[global] Instance Zero_Size : Zero Size.t :=
  Size.mk zero zero zero zero zero zero zero zero.
#[global] Instance Zero_Droplet : Zero Droplet.t :=
  Droplet.mk zero zero zero zero zero zero zero zero zero zero zero.
#[global] Instance Zero_PartialDroplet : Zero PartialDroplet.t :=
  PartialDroplet.mk zero zero zero zero zero.
#[global] Instance Zero_Domain : Zero Domain.t :=
  Domain.mk zero zero zero zero zero zero.
#[global] Instance Zero_PartialDomain : Zero PartialDomain.t :=
  PartialDomain.mk zero zero.
#[global] Instance Zero_DomainRecord : Zero DomainRecord.t :=
  DomainRecord.mk zero zero zero zero zero zero zero zero.
#[global] Instance Zero_Image : Zero Image.t :=
  Image.mk zero zero zero zero zero zero zero.

(** The response envelope.  Every operation declares its own anonymous
    struct [DOResp] with a [Status], one payload field whose name and type
    vary ([Droplet], [EventID], [Records], ...; none for the operations
    that only report success) and a [Message]. *)
Module DOResp.
Record t (P : Type) : Type := mk {
  Status : Status;
  Payload : P;
  Message : string }.
Arguments mk {P} _ _ _.
Arguments Status {P} _.
Arguments Payload {P} _.
Arguments Message {P} _.
End DOResp.

#[global] Instance Zero_DOResp {P : Type} `{Zero P} : Zero (DOResp.t P) :=
  DOResp.mk zero zero zero.

(** ** Effects *)

(** A call either returns to its caller or panics. *)
Inductive Outcome (A : Type) : Type :=
| Returns (a : A)
| Panics (e : error).
Arguments Returns {A} a.
Arguments Panics {A} e.

(** A computation threads the list of URLs handed to [http.Get] so far,
    oldest first. *)
Definition IO (A : Type) : Type := list string -> Outcome A * list string.

Definition ret {A : Type} (a : A) : IO A := fun reqs => (Returns a, reqs).

Definition bind {A B : Type} (m : IO A) (k : A -> IO B) : IO B :=
  fun reqs =>
    match m reqs with
    | (Returns a, reqs') => k a reqs'
    | (Panics e, reqs') => (Panics e, reqs')
    end.

Definition panic {A : Type} (e : error) : IO A := fun reqs => (Panics e, reqs).

Notation "x <- m ;; k" := (bind m (fun x => k))
  (at level 61, m at next level, right associativity).
Notation "' pat <- m ;; k" := (bind m (fun x => match x with pat => k end))
  (at level 61, pat pattern, m at next level, right associativity).

(** Running a call from a state in which nothing was requested yet. *)
Definition run {A : Type} (m : IO A) : Outcome A * list string := m [].
Definition outcome {A : Type} (m : IO A) : Outcome A := fst (run m).
Definition requests {A : Type} (m : IO A) : list string := snd (run m).

(** What a caller can tell of a result without looking into the payload:
    whether the payload is the zero value of its type, and the error. *)
Definition isNil {A : Type} (p : option A) : bool :=
  match p with
  | None => true
  | Some _ => false
  end.

Definition isEmpty {A : Type} (l : list A) : bool :=
  match l with
  | [] => true
  | _ :: _ => false
  end.

Definition summarize {A : Type} (blank : A -> bool)
    (m : IO (A * option error)) : Outcome (bool * option error) :=
  match outcome m with
  | Returns (a, err) => Returns (blank a, err)
  | Panics e => Panics e
  end.

(** The same for the operations that return an error only. *)
Definition summarizeError (m : IO (option error))
    : Outcome (bool * option error) :=
  match outcome m with
  | Returns err => Returns (true, err)
  | Panics e => Panics e
  end.

Module ioutil.
(** An [io.Reader], as the bytes it yields and the error, if any, that
    ends the reading. *)
Record Reader : Type := mkReader { data : string; failure : option error }.

(** [ioutil.ReadAll(r)] *)
Definition ReadAll (r : Reader) : string * option error :=
  (data r, failure r).
End ioutil.

Module http.
Record Response : Type := mkResponse { Body : ioutil.Reader }.

(** What [http.Get] gives back: a response, or a transport error. *)
Inductive GetResult : Type :=
| Got (resp : Response)
| Failed (err : error).
End http.

Module json.
(** [json.Unmarshal(data, &v)] for a destination of type [T]: the new
    contents of [v] and the decode error, if any. *)
Class Unmarshaler (T : Type) : Type :=
  Unmarshal : string -> T -> T * option error.
End json.

(** ** The client *)

Section Operations.

(** [http.Get]: what the transport answers to each URL. *)
Variable http_Get : string -> http.GetResult.

(** [net.IP.String] *)
Variable IP_String : net.IP -> string.

(** [encoding/json], at each envelope shape an operation declares. *)
Context {json_event : json.Unmarshaler (DOResp.t Event.t)}
        {json_regions : json.Unmarshaler (DOResp.t (list Region.t))}
        {json_sizes : json.Unmarshaler (DOResp.t (list Size.t))}
        {json_partial_droplet : json.Unmarshaler (DOResp.t PartialDroplet.t)}
        {json_event_id : json.Unmarshaler (DOResp.t Z)}
        {json_droplets : json.Unmarshaler (DOResp.t (list Droplet.t))}
        {json_droplet : json.Unmarshaler (DOResp.t Droplet.t)}
        {json_partial_domain : json.Unmarshaler (DOResp.t PartialDomain.t)}
        {json_status : json.Unmarshaler (DOResp.t unit)}
        {json_domains : json.Unmarshaler (DOResp.t (list Domain.t))}
        {json_domain : json.Unmarshaler (DOResp.t Domain.t)}
        {json_record : json.Unmarshaler (DOResp.t DomainRecord.t)}
        {json_records : json.Unmarshaler (DOResp.t (list DomainRecord.t))}
        {json_images : json.Unmarshaler (DOResp.t (list Image.t))}
        {json_image : json.Unmarshaler (DOResp.t Image.t)}.

(** The call [http.Get(url)]: the URL is recorded, the transport answers. *)
Definition httpGet (url : string) : IO http.GetResult :=
  fun reqs => (Returns (http_Get url), (reqs ++ [url])%list).

(** An IP as a [fmt] operand.  [net.IP] implements [fmt.Stringer], which
    [%s] and [%v] use; no other verb is applied to an IP in this program. *)
Definition IPValue (ip : net.IP) : GoValue :=
  VOther "net.IP" (fun _ => IP_String ip).

(** *** [godo.go] *)

(** [doGet(endpoint, i)]: returns the contents of [i] after the call
    together with the error. *)
Definition doGet {T : Type} {json_T : json.Unmarshaler T}
    (c : Client) (endpoint : string) (i : T) : IO (T * option error) :=
  let url := fmt.Sprintf "%s%s" [VString APIURL; VString endpoint] in
  let url := if negb (strings.Contains url "?") then url ++ "?"
             else url ++ "&" in
  let url := url ++ fmt.Sprintf "client_id=%s&api_key=%s"
                      [VString (ClientID c); VString (APIKey c)] in
  got <- httpGet url ;;
  match got with
  | http.Failed err => ret (i, Some err)
  | http.Got resp =>
      let (body, err) := ioutil.ReadAll (http.Body resp) in
      match err with
      | Some err => panic err
      | None =>
          let (i', err) := json.Unmarshal body i in
          match err with
          | Some err => panic err
          | None => ret (i', None)
          end
      end
  end.

Definition GetEventByID (c : Client) (ID : Z)
    : IO (option Event.t * option error) :=
  '(resp, err) <- doGet c (fmt.Sprintf "/events/%d" [VInt ID])
                    (zero : DOResp.t Event.t) ;;
  match err with
  | Some err => ret (None, Some err)
  | None =>
      if (DOResp.Status resp =? StatusError)%string then
        ret (None, Some (fmt.Errorf "could not get event with ID %d: %v"
                           [VInt ID; VString (DOResp.Message resp)]))
      else ret (Some (DOResp.Payload resp), None)
  end.

Definition GetAllRegions (c : Client) : IO (list Region.t * option error) :=
  '(resp, err) <- doGet c "/regions" (zero : DOResp.t (list Region.t)) ;;
  match err with
  | Some err => ret ([], Some err)
  | None =>
      if (DOResp.Status resp =? StatusError)%string then
        ret ([], Some (fmt.Errorf "could not get regions: %v"
                         [VString (DOResp.Message resp)]))
      else ret (DOResp.Payload resp, None)
  end.

Definition GetAllSizes (c : Client) : IO (list Size.t * option error) :=
  '(resp, err) <- doGet c "/sizes" (zero : DOResp.t (list Size.t)) ;;
  match err with
  | Some err => ret ([], Some err)
  | None =>
      if (DOResp.Status resp =? StatusError)%string then
        ret ([], Some (fmt.Errorf "could not get sizes: %v"
                         [VString (DOResp.Message resp)]))
      else ret (DOResp.Payload resp, None)
  end.

(** *** Droplets *)

Definition CreateDroplet (c : Client) (n : NewDroplet.t)
    : IO (option PartialDroplet.t * option error) :=
  if (NewDroplet.SizeID n =? 0) && (NewDroplet.SizeSlug n =? "")%string then
    ret (None, Some (fmt.Errorf "size ID or slug must be set" []))
  else if (NewDroplet.ImageID n =? 0)
          && (NewDroplet.ImageSlug n =? "")%string then
    ret (None, Some (fmt.Errorf "image ID or slug must be set" []))
  else if (NewDroplet.RegionID n =? 0)
          && (NewDroplet.RegionSlug n =? "")%string then
    ret (None, Some (fmt.Errorf "region ID or slug must be set" []))
  else
    let s := fmt.Sprintf "/droplets/new?name=%s"
               [VString (NewDroplet.Name n)] in
    let s := if negb (NewDroplet.SizeID n =? 0)
             then s ++ fmt.Sprintf "&size_id=%d" [VInt (NewDroplet.SizeID n)]
             else s ++ "&size_slug=" ++ NewDroplet.SizeSlug n in
    let s := if negb (NewDroplet.ImageID n =? 0)
             then s ++ fmt.Sprintf "&image_id=%d"
                         [VInt (NewDroplet.ImageID n)]
             else s ++ "&image_slug=" ++ NewDroplet.ImageSlug n in
    let s := if negb (NewDroplet.RegionID n =? 0)
             then s ++ fmt.Sprintf "&region_id=%d"
                         [VInt (NewDroplet.RegionID n)]
             else s ++ "&region_slug=" ++ NewDroplet.RegionSlug n in
    let s := if (0 <? Z.of_nat (List.length (NewDroplet.SSHKeyIDs n)))
             then s ++ "&ssh_key_ids="
                    ++ strings.Join (NewDroplet.SSHKeyIDs n) ","
             else s in
    let s := if NewDroplet.PrivateNetworking n
             then s ++ "&private_networking=true" else s in
    let s := if NewDroplet.BackupsEnabled n
             then s ++ "&backups_enabled=true" else s in
    '(resp, err) <- doGet c s (zero : DOResp.t PartialDroplet.t) ;;
    match err with
    | Some err => ret (None, Some err)
    | None =>
        if (DOResp.Status resp =? StatusError)%string then
          ret (None, Some (fmt.Errorf "could not create droplet: %v"
                             [VString (DOResp.Message resp)]))
        else ret (Some (DOResp.Payload resp), None)
    end.

Definition DeleteDropletByID (c : Client) (ID : Z) : IO (Z * option error) :=
  '(resp, err) <- doGet c
      (fmt.Sprintf "/droplets/%d/destroy" [VInt ID])
      (zero : DOResp.t Z) ;;
  match err with
  | Some err => ret (0, Some err)
  | None =>
      if (DOResp.Status resp =? StatusError)%string then
        ret (0, Some (fmt.Errorf
                        "could not delete droplet with ID %d: %v"
                        [VInt ID; VString (DOResp.Message resp)]))
      else ret (DOResp.Payload resp, None)
  end.

Definition GetAllDroplets (c : Client)
    : IO (list Droplet.t * option error) :=
  '(resp, err) <- doGet c "/droplets" (zero : DOResp.t (list Droplet.t)) ;;
  match err with
  | Some err => ret ([], Some err)
  | None =>
      if (DOResp.Status resp =? StatusError)%string then
        ret ([], Some (fmt.Errorf "could not get droplets: %v"
                         [VString (DOResp.Message resp)]))
      else ret (DOResp.Payload resp, None)
  end.

Definition GetDropletByID (c : Client) (ID : Z)
    : IO (option Droplet.t * option error) :=
  '(resp, err) <- doGet c (fmt.Sprintf "/droplets/%d" [VInt ID])
                    (zero : DOResp.t Droplet.t) ;;
  match err with
  | Some err => ret (None, Some err)
  | None =>
      if (DOResp.Status resp =? StatusError)%string then
        ret (None, Some (fmt.Errorf "could not get droplet with ID %d: %v"
                           [VInt ID; VString (DOResp.Message resp)]))
      else ret (Some (DOResp.Payload resp), None)
  end.

Definition RebootDroplet (c : Client) (ID : Z) : IO (Z * option error) :=
  '(resp, err) <- doGet c
      (fmt.Sprintf "/droplets/%d/reboot" [VInt ID])
      (zero : DOResp.t Z) ;;
  match err with
  | Some err => ret (0, Some err)
  | None =>
      if (DOResp.Status resp =? StatusError)%string then
        ret (0, Some (fmt.Errorf
                        "could not reboot droplet with ID %d: %v"
                        [VInt ID; VString (DOResp.Message resp)]))
      else ret (DOResp.Payload resp, None)
  end.

Definition PowerCycleDroplet (c : Client) (ID : Z) : IO (Z * option error) :=
  '(resp, err) <- doGet c
      (fmt.Sprintf "/droplets/%d/power_cycle" [VInt ID])
      (zero : DOResp.t Z) ;;
  match err with
  | Some err => ret (0, Some err)
  | None =>
      if (DOResp.Status resp =? StatusError)%string then
        ret (0, Some (fmt.Errorf
                        "could not reboot droplet with ID %d: %v"
                        [VInt ID; VString (DOResp.Message resp)]))
      else ret (DOResp.Payload resp, None)
  end.

Definition ShutDownDroplet (c : Client) (ID : Z) : IO (Z * option error) :=
  '(resp, err) <- doGet c
      (fmt.Sprintf "/droplets/%d/shutdown" [VInt ID])
      (zero : DOResp.t Z) ;;
  match err with
  | Some err => ret (0, Some err)
  | None =>
      if (DOResp.Status resp =? StatusError)%string then
        ret (0, Some (fmt.Errorf
                        "could not shut down droplet with ID %d: %v"
                        [VInt ID; VString (DOResp.Message resp)]))
      else ret (DOResp.Payload resp, None)
  end.

Definition PowerOffDroplet (c : Client) (ID : Z) : IO (Z * option error) :=
  '(resp, err) <- doGet c
      (fmt.Sprintf "/droplets/%d/power_off" [VInt ID])
      (zero : DOResp.t Z) ;;
  match err with
  | Some err => ret (0, Some err)
  | None =>
      if (DOResp.Status resp =? StatusError)%string then
        ret (0, Some (fmt.Errorf
                        "could not power off droplet with ID %d: %v"
                        [VInt ID; VString (DOResp.Message resp)]))
      else ret (DOResp.Payload resp, None)
  end.

Definition PowerOnDroplet (c : Client) (ID : Z) : IO (Z * option error) :=
  '(resp, err) <- doGet c
      (fmt.Sprintf "/droplets/%d/power_on" [VInt ID])
      (zero : DOResp.t Z) ;;
  match err with
  | Some err => ret (0, Some err)
  | None =>
      if (DOResp.Status resp =? StatusError)%string then
        ret (0, Some (fmt.Errorf
                        "could not power on droplet with ID %d: %v"
                        [VInt ID; VString (DOResp.Message resp)]))
      else ret (DOResp.Payload resp, None)
  end.

Definition ResetRootPassDroplet (c : Client) (ID : Z)
    : IO (Z * option error) :=
  '(resp, err) <- doGet c
      (fmt.Sprintf "/droplets/%d/password_reset" [VInt ID])
      (zero : DOResp.t Z) ;;
  match err with
  | Some err => ret (0, Some err)
  | None =>
      if (DOResp.Status resp =? StatusError)%string then
        ret (0, Some (fmt.Errorf
                        "could not reset root's password for droplet with ID %d: %v"
                        [VInt ID; VString (DOResp.Message resp)]))
      else ret (DOResp.Payload resp, None)
  end.

Definition ResizeDroplet (c : Client) (ID : Z) (size : GoValue)
    : IO (Z * option error) :=
  let s := fmt.Sprintf "/droplets/%d/resize" [VInt ID] in
  let proceed (s : string) : IO (Z * option error) :=
    '(resp, err) <- doGet c s (zero : DOResp.t Z) ;;
    match err with
    | Some err => ret (0, Some err)
    | None =>
        if (DOResp.Status resp =? StatusError)%string then
          ret (0, Some (fmt.Errorf
                          "could not resize the droplet with ID %d: %v"
                          [VInt ID; VString (DOResp.Message resp)]))
        else ret (DOResp.Payload resp, None)
    end in
  match size with
  | VString _ => proceed (s ++ fmt.Sprintf "&size_slug=%s" [size])
  | VInt _ => proceed (s ++ fmt.Sprintf "&size_id=%d" [size])
  | VOther _ _ =>
      ret (0, Some (fmt.Errorf "size must be either a string or integer" []))
  end.

Definition TakeSnapshotOnDroplet (c : Client) (ID : Z) (name : string)
    : IO (Z * option error) :=
  let s := fmt.Sprintf "/droplets/%d/snapshot" [VInt ID] in
  let s := if negb (name =? "")%string
           then s ++ fmt.Sprintf "&name=%s" [VString name] else s in
  '(resp, err) <- doGet c s (zero : DOResp.t Z) ;;
  match err with
  | Some err => ret (0, Some err)
  | None =>
      if (DOResp.Status resp =? StatusError)%string then
        ret (0, Some (fmt.Errorf
                        "could not take snapshot of droplet with ID %d: %v"
                        [VInt ID; VString (DOResp.Message resp)]))
      else ret (DOResp.Payload resp, None)
  end.

Definition RestoreDroplet (c : Client) (ID imageID : Z)
    : IO (Z * option error) :=
  '(resp, err) <- doGet c
      (fmt.Sprintf "/droplets/%d/restore?image_id=%d" [VInt ID; VInt imageID])
      (zero : DOResp.t Z) ;;
  match err with
  | Some err => ret (0, Some err)
  | None =>
      if (DOResp.Status resp =? StatusError)%string then
        ret (0, Some (fmt.Errorf
                        "could not restore droplet with ID %d: %v"
                        [VInt ID; VString (DOResp.Message resp)]))
      else ret (DOResp.Payload resp, None)
  end.

Definition RebuildDroplet (c : Client) (ID imageID : Z)
    : IO (Z * option error) :=
  '(resp, err) <- doGet c
      (fmt.Sprintf "/droplets/%d/rebuild?image_id=%d" [VInt ID; VInt imageID])
      (zero : DOResp.t Z) ;;
  match err with
  | Some err => ret (0, Some err)
  | None =>
      if (DOResp.Status resp =? StatusError)%string then
        ret (0, Some (fmt.Errorf
                        "could not rebuild droplet with ID %d: %v"
                        [VInt ID; VString (DOResp.Message resp)]))
      else ret (DOResp.Payload resp, None)
  end.

Definition RenameDroplet (c : Client) (ID : Z) (name : string)
    : IO (Z * option error) :=
  '(resp, err) <- doGet c
      (fmt.Sprintf "/droplets/%d/rename?name=%s" [VInt ID; VString name])
      (zero : DOResp.t Z) ;;
  match err with
  | Some err => ret (0, Some err)
  | None =>
      if (DOResp.Status resp =? StatusError)%string then
        ret (0, Some (fmt.Errorf
                        "could not rename droplet with ID %d: %v"
                        [VInt ID; VString (DOResp.Message resp)]))
      else ret (DOResp.Payload resp, None)
  end.

(** *** Domains *)

Definition CreateDomain (c : Client) (name : string) (IP : net.IP)
    : IO (option PartialDomain.t * option error) :=
  if (name =? "")%string then
    ret (None, Some (fmt.Errorf "name must be set" []))
  else if (Z.of_nat (List.length IP) =? 0) then
    ret (None, Some (fmt.Errorf "IP address must be set and valid" []))
  else
    let s := fmt.Sprintf "/domains/new?name=%s&ip_address=%s"
               [VString name; IPValue IP] in
    '(resp, err) <- doGet c s (zero : DOResp.t PartialDomain.t) ;;
    match err with
    | Some err => ret (None, Some err)
    | None =>
        if (DOResp.Status resp =? StatusError)%string then
          ret (None, Some (fmt.Errorf "could not create domain: %v"
                             [VString (DOResp.Message resp)]))
        else ret (Some (DOResp.Payload resp), None)
    end.

Definition DeleteDomainByID (c : Client) (ID : GoValue)
    : IO (option error) :=
  '(resp, err) <- doGet c (fmt.Sprintf "/domains/%v/destroy" [ID])
                    (zero : DOResp.t unit) ;;
  match err with
  | Some err => ret (Some err)
  | None =>
      if (DOResp.Status resp =? StatusError)%string then
        ret (Some (fmt.Errorf "could not delete domain with ID %v: %v"
                     [ID; VString (DOResp.Message resp)]))
      else ret None
  end.

Definition GetAllDomains (c : Client) : IO (list Domain.t * option error) :=
  '(resp, err) <- doGet c "/domains" (zero : DOResp.t (list Domain.t)) ;;
  match err with
  | Some err => ret ([], Some err)
  | None =>
      if (DOResp.Status resp =? StatusError)%string then
        ret ([], Some (fmt.Errorf "could not get domains: %v"
                         [VString (DOResp.Message resp)]))
      else ret (DOResp.Payload resp, None)
  end.

Definition GetDomainByID (c : Client) (ID : Z)
    : IO (option Domain.t * option error) :=
  '(resp, err) <- doGet c (fmt.Sprintf "/domains/%d" [VInt ID])
                    (zero : DOResp.t Domain.t) ;;
  match err with
  | Some err => ret (None, Some err)
  | None =>
      if (DOResp.Status resp =? StatusError)%string then
        ret (None, Some (fmt.Errorf "could not get domain with ID %d: %v"
                           [VInt ID; VString (DOResp.Message resp)]))
      else ret (Some (DOResp.Payload resp), None)
  end.

Definition CreateDomainRecord (c : Client) (ID : GoValue)
    (r : DomainRecord.t) : IO (option DomainRecord.t * option error) :=
  if (DomainRecord.RecordType r =? "")%string then
    ret (None, Some (fmt.Errorf "record type must be set" []))
  else if (DomainRecord.Data r =? "")%string then
    ret (None, Some (fmt.Errorf "data value must be set" []))
  else
    let s := fmt.Sprintf "/domains/%v/records/new?record_type=%s&data=%s"
               [ID; VString (DomainRecord.RecordType r);
                VString (DomainRecord.Data r)] in
    let s := if negb (DomainRecord.Name r =? "")%string
             then s ++ fmt.Sprintf "&name=%s" [VString (DomainRecord.Name r)]
             else s in
    let s := if negb (DomainRecord.Priority r =? 0)
             then s ++ fmt.Sprintf "&priority=%d"
                         [VInt (DomainRecord.Priority r)]
             else s in
    let s := if negb (DomainRecord.Port r =? 0)
             then s ++ fmt.Sprintf "&port=%d" [VInt (DomainRecord.Port r)]
             else s in
    let s := if negb (DomainRecord.Weight r =? 0)
             then s ++ fmt.Sprintf "&weight=%d" [VInt (DomainRecord.Weight r)]
             else s in
    '(resp, err) <- doGet c s (zero : DOResp.t DomainRecord.t) ;;
    match err with
    | Some err => ret (None, Some err)
    | None =>
        if (DOResp.Status resp =? StatusError)%string then
          ret (None, Some (fmt.Errorf
                             "could not create record for domain %v: %v"
                             [ID; VString (DOResp.Message resp)]))
        else ret (Some (DOResp.Payload resp), None)
    end.

Definition GetAllRecordsByDomain (c : Client) (domainID : GoValue)
    : IO (list DomainRecord.t * option error) :=
  '(resp, err) <- doGet c (fmt.Sprintf "/domains/%v/records" [domainID])
                    (zero : DOResp.t (list DomainRecord.t)) ;;
  match err with
  | Some err => ret ([], Some err)
  | None =>
      if (DOResp.Status resp =? StatusError)%string then
        ret ([], Some (fmt.Errorf "could not get records for domain %v: %v"
                         [domainID; VString (DOResp.Message resp)]))
      else ret (DOResp.Payload resp, None)
  end.

Definition GetRecordByDomain (c : Client) (domainID : GoValue) (ID : Z)
    : IO (option DomainRecord.t * option error) :=
  '(resp, err) <- doGet c
      (fmt.Sprintf "/domains/%v/records/%d" [domainID; VInt ID])
      (zero : DOResp.t DomainRecord.t) ;;
  match err with
  | Some err => ret (None, Some err)
  | None =>
      if (DOResp.Status resp =? StatusError)%string then
        ret (None, Some (fmt.Errorf
                           "could not get record for domain %v with ID %d: %v"
                           [domainID; VInt ID;
                            VString (DOResp.Message resp)]))
      else ret (Some (DOResp.Payload resp), None)
  end.

Definition UpdateRecordByDomain (c : Client) (domainID : GoValue)
    (r : DomainRecord.t) : IO (option DomainRecord.t * option error) :=
  if (DomainRecord.ID r =? 0) then
    ret (None, Some (fmt.Errorf "record ID must be set" []))
  else if (DomainRecord.RecordType r =? "")%string then
    ret (None, Some (fmt.Errorf "record type must be set" []))
  else if (DomainRecord.Data r =? "")%string then
    ret (None, Some (fmt.Errorf "data value must be set" []))
  else
    let s := fmt.Sprintf "/domains/%v/records/new?record_type=%s&data=%s"
               [domainID; VInt (DomainRecord.ID r);
                VString (DomainRecord.RecordType r);
                VString (DomainRecord.Data r)] in
    let s := if negb (DomainRecord.Name r =? "")%string
             then s ++ fmt.Sprintf "&name=%s" [VString (DomainRecord.Name r)]
             else s in
    let s := if negb (DomainRecord.Priority r =? 0)
             then s ++ fmt.Sprintf "&priority=%d"
                         [VInt (DomainRecord.Priority r)]
             else s in
    let s := if negb (DomainRecord.Port r =? 0)
             then s ++ fmt.Sprintf "&port=%d" [VInt (DomainRecord.Port r)]
             else s in
    let s := if negb (DomainRecord.Weight r =? 0)
             then s ++ fmt.Sprintf "&weight=%d" [VInt (DomainRecord.Weight r)]
             else s in
    '(resp, err) <- doGet c s (zero : DOResp.t DomainRecord.t) ;;
    match err with
    | Some err => ret (None, Some err)
    | None =>
        if (DOResp.Status resp =? StatusError)%string then
          ret (None, Some (fmt.Errorf
                             "could not create record %d for domain %v: %v"
                             [VInt (DomainRecord.ID r); domainID;
                              VString (DOResp.Message resp)]))
        else ret (Some (DOResp.Payload resp), None)
    end.

Definition DeleteRecordByDomain (c : Client) (domainID : GoValue) (ID : Z)
    : IO (option error) :=
  '(resp, err) <- doGet c
      (fmt.Sprintf "/domains/%v/records/%d/destroy" [domainID; VInt ID])
      (zero : DOResp.t unit) ;;
  match err with
  | Some err => ret (Some err)
  | None =>
      if (DOResp.Status resp =? StatusError)%string then
        ret (Some (fmt.Errorf
                     "could not delete record %d for domain with ID %v: %v"
                     [domainID; VInt ID; VString (DOResp.Message resp)]))
      else ret None
  end.

(** *** [images.go] *)

Definition DeleteImage (c : Client) (ID : GoValue) : IO (option error) :=
  let proceed (s : string) : IO (option error) :=
    '(resp, err) <- doGet c s (zero : DOResp.t unit) ;;
    match err with
    | Some err => ret (Some err)
    | None =>
        if (DOResp.Status resp =? StatusError)%string then
          ret (Some (fmt.Errorf "could not delete image with ID %v: %v"
                       [ID; VString (DOResp.Message resp)]))
        else ret None
    end in
  match ID with
  | VString _ | VInt _ => proceed (fmt.Sprintf "/images/%v/destroy" [ID])
  | VOther _ _ =>
      ret (Some (fmt.Errorf "ID must be either a string or integer" []))
  end.

Definition GetAllImages (c : Client) : IO (list Image.t * option error) :=
  '(resp, err) <- doGet c "/images" (zero : DOResp.t (list Image.t)) ;;
  match err with
  | Some err => ret ([], Some err)
  | None =>
      if (DOResp.Status resp =? StatusError)%string then
        ret ([], Some (fmt.Errorf "could not get images: %v"
                         [VString (DOResp.Message resp)]))
      else ret (DOResp.Payload resp, None)
  end.

Definition GetImageByID (c : Client) (ID : GoValue)
    : IO (option Image.t * option error) :=
  let proceed (s : string) : IO (option Image.t * option error) :=
    '(resp, err) <- doGet c s (zero : DOResp.t Image.t) ;;
    match err with
    | Some err => ret (None, Some err)
    | None =>
        if (DOResp.Status resp =? StatusError)%string then
          ret (None, Some (fmt.Errorf "could not get image with ID %v: %v"
                             [ID; VString (DOResp.Message resp)]))
        else ret (Some (DOResp.Payload resp), None)
    end in
  match ID with
  | VString _ | VInt _ => proceed (fmt.Sprintf "/images/%v" [ID])
  | VOther _ _ =>
      ret (None,
           Some (fmt.Errorf "ID must be either a string or integer" []))
  end.

Definition TransferImage (c : Client) (ID : GoValue) (regionID : Z)
    : IO (Z * option error) :=
  let proceed (s : string) : IO (Z * option error) :=
    '(resp, err) <- doGet c s (zero : DOResp.t Z) ;;
    match err with
    | Some err => ret (0, Some err)
    | None =>
        if (DOResp.Status resp =? StatusError)%string then
          ret (0, Some (fmt.Errorf
                          "could not transfer image with ID %v: %v"
                          [ID; VString (DOResp.Message resp)]))
        else ret (DOResp.Payload resp, None)
    end in
  match ID with
  | VString _ | VInt _ =>
      proceed (fmt.Sprintf "/images/%v/transfer?region_id=%d"
                 [ID; VInt regionID])
  | VOther _ _ =>
      ret (0, Some (fmt.Errorf "ID must be either a string or integer" []))
  end.

(** *** The operations as one family *)

(** One constructor per exported method of [*Client], with its
    arguments. *)
Inductive Call : Type :=
| CallGetEventByID (ID : Z)
| CallGetAllRegions
| CallGetAllSizes
| CallCreateDroplet (n : NewDroplet.t)
| CallDeleteDropletByID (ID : Z)
| CallGetAllDroplets
| CallGetDropletByID (ID : Z)
| CallRebootDroplet (ID : Z)
| CallPowerCycleDroplet (ID : Z)
| CallShutDownDroplet (ID : Z)
| CallPowerOffDroplet (ID : Z)
| CallPowerOnDroplet (ID : Z)
| CallResetRootPassDroplet (ID : Z)
| CallResizeDroplet (ID : Z) (size : GoValue)
| CallTakeSnapshotOnDroplet (ID : Z) (name : string)
| CallRestoreDroplet (ID imageID : Z)
| CallRebuildDroplet (ID imageID : Z)
| CallRenameDroplet (ID : Z) (name : string)
| CallCreateDomain (name : string) (IP : net.IP)
| CallDeleteDomainByID (ID : GoValue)
| CallGetAllDomains
| CallGetDomainByID (ID : Z)
| CallCreateDomainRecord (ID : GoValue) (r : DomainRecord.t)
| CallGetAllRecordsByDomain (domainID : GoValue)
| CallGetRecordByDomain (domainID : GoValue) (ID : Z)
| CallUpdateRecordByDomain (domainID : GoValue) (r : DomainRecord.t)
| CallDeleteRecordByDomain (domainID : GoValue) (ID : Z)
| CallDeleteImage (ID : GoValue)
| CallGetAllImages
| CallGetImageByID (ID : GoValue)
| CallTransferImage (ID : GoValue) (regionID : Z).

(** The URLs a call hands to the transport. *)
Definition callRequests (c : Client) (call : Call) : list string :=
  match call with
  | CallGetEventByID ID => requests (GetEventByID c ID)
  | CallGetAllRegions => requests (GetAllRegions c)
  | CallGetAllSizes => requests (GetAllSizes c)
  | CallCreateDroplet n => requests (CreateDroplet c n)
  | CallDeleteDropletByID ID => requests (DeleteDropletByID c ID)
  | CallGetAllDroplets => requests (GetAllDroplets c)
  | CallGetDropletByID ID => requests (GetDropletByID c ID)
  | CallRebootDroplet ID => requests (RebootDroplet c ID)
  | CallPowerCycleDroplet ID => requests (PowerCycleDroplet c ID)
  | CallShutDownDroplet ID => requests (ShutDownDroplet c ID)
  | CallPowerOffDroplet ID => requests (PowerOffDroplet c ID)
  | CallPowerOnDroplet ID => requests (PowerOnDroplet c ID)
  | CallResetRootPassDroplet ID => requests (ResetRootPassDroplet c ID)
  | CallResizeDroplet ID size => requests (ResizeDroplet c ID size)
  | CallTakeSnapshotOnDroplet ID name =>
      requests (TakeSnapshotOnDroplet c ID name)
  | CallRestoreDroplet ID imageID => requests (RestoreDroplet c ID imageID)
  | CallRebuildDroplet ID imageID => requests (RebuildDroplet c ID imageID)
  | CallRenameDroplet ID name => requests (RenameDroplet c ID name)
  | CallCreateDomain name IP => requests (CreateDomain c name IP)
  | CallDeleteDomainByID ID => requests (DeleteDomainByID c ID)
  | CallGetAllDomains => requests (GetAllDomains c)
  | CallGetDomainByID ID => requests (GetDomainByID c ID)
  | CallCreateDomainRecord ID r => requests (CreateDomainRecord c ID r)
  | CallGetAllRecordsByDomain domainID =>
      requests (GetAllRecordsByDomain c domainID)
  | CallGetRecordByDomain domainID ID =>
      requests (GetRecordByDomain c domainID ID)
  | CallUpdateRecordByDomain domainID r =>
      requests (UpdateRecordByDomain c domainID r)
  | CallDeleteRecordByDomain domainID ID =>
      requests (DeleteRecordByDomain c domainID ID)
  | CallDeleteImage ID => requests (DeleteImage c ID)
  | CallGetAllImages => requests (GetAllImages c)
  | CallGetImageByID ID => requests (GetImageByID c ID)
  | CallTransferImage ID regionID => requests (TransferImage c ID regionID)
  end.

(** What a call gives back to its caller: whether the payload is the zero
    value (a nil pointer, a nil slice, event ID 0), and the error. *)
Definition callSummary (c : Client) (call : Call)
    : Outcome (bool * option error) :=
  match call with
  | CallGetEventByID ID => summarize isNil (GetEventByID c ID)
  | CallGetAllRegions => summarize isEmpty (GetAllRegions c)
  | CallGetAllSizes => summarize isEmpty (GetAllSizes c)
  | CallCreateDroplet n => summarize isNil (CreateDroplet c n)
  | CallDeleteDropletByID ID => summarize (Z.eqb 0) (DeleteDropletByID c ID)
  | CallGetAllDroplets => summarize isEmpty (GetAllDroplets c)
  | CallGetDropletByID ID => summarize isNil (GetDropletByID c ID)
  | CallRebootDroplet ID => summarize (Z.eqb 0) (RebootDroplet c ID)
  | CallPowerCycleDroplet ID => summarize (Z.eqb 0) (PowerCycleDroplet c ID)
  | CallShutDownDroplet ID => summarize (Z.eqb 0) (ShutDownDroplet c ID)
  | CallPowerOffDroplet ID => summarize (Z.eqb 0) (PowerOffDroplet c ID)
  | CallPowerOnDroplet ID => summarize (Z.eqb 0) (PowerOnDroplet c ID)
  | CallResetRootPassDroplet ID =>
      summarize (Z.eqb 0) (ResetRootPassDroplet c ID)
  | CallResizeDroplet ID size => summarize (Z.eqb 0) (ResizeDroplet c ID size)
  | CallTakeSnapshotOnDroplet ID name =>
      summarize (Z.eqb 0) (TakeSnapshotOnDroplet c ID name)
  | CallRestoreDroplet ID imageID =>
      summarize (Z.eqb 0) (RestoreDroplet c ID imageID)
  | CallRebuildDroplet ID imageID =>
      summarize (Z.eqb 0) (RebuildDroplet c ID imageID)
  | CallRenameDroplet ID name => summarize (Z.eqb 0) (RenameDroplet c ID name)
  | CallCreateDomain name IP => summarize isNil (CreateDomain c name IP)
  | CallDeleteDomainByID ID => summarizeError (DeleteDomainByID c ID)
  | CallGetAllDomains => summarize isEmpty (GetAllDomains c)
  | CallGetDomainByID ID => summarize isNil (GetDomainByID c ID)
  | CallCreateDomainRecord ID r => summarize isNil (CreateDomainRecord c ID r)
  | CallGetAllRecordsByDomain domainID =>
      summarize isEmpty (GetAllRecordsByDomain c domainID)
  | CallGetRecordByDomain domainID ID =>
      summarize isNil (GetRecordByDomain c domainID ID)
  | CallUpdateRecordByDomain domainID r =>
      summarize isNil (UpdateRecordByDomain c domainID r)
  | CallDeleteRecordByDomain domainID ID =>
      summarizeError (DeleteRecordByDomain c domainID ID)
  | CallDeleteImage ID => summarizeError (DeleteImage c ID)
  | CallGetAllImages => summarize isEmpty (GetAllImages c)
  | CallGetImageByID ID => summarize isNil (GetImageByID c ID)
  | CallTransferImage ID regionID =>
      summarize (Z.eqb 0) (TransferImage c ID regionID)
  end.

End Operations.

(** ** Vocabulary of the properties *)

(** The two credential parameters, as [doGet] formats them. *)
Definition credentials (c : Client) : string :=
  "client_id=" ++ ClientID c ++ "&api_key=" ++ APIKey c.

(** The URL [doGet] composes for an endpoint, in closed form
    (lemma [doGet_run] shows it is the one requested). *)
Definition requestURL (c : Client) (endpoint : string) : string :=
  APIURL ++ endpoint
    ++ (if strings.Contains endpoint "?" then "&" else "?")
    ++ credentials c.

(** [sub] occurs in [s]. *)
Definition contains (s sub : string) : Prop :=
  exists pre post, s = pre ++ sub ++ post.

(** A query parameter as it is written after the first one. *)
Definition queryParam (key value : string) : string :=
  "&" ++ key ++ "=" ++ value.

Definition queryParams (ps : list (string * string)) : string :=
  String.concat "" (map (fun p => queryParam (fst p) (snd p)) ps).

(** The three selectors of a [NewDroplet], in the order [CreateDroplet]
    validates them. *)
Inductive Selector : Type := SelSize | SelImage | SelRegion.

Definition selectorName (sel : Selector) : string :=
  match sel with
  | SelSize => "size"
  | SelImage => "image"
  | SelRegion => "region"
  end.

Definition selectorRank (sel : Selector) : nat :=
  match sel with
  | SelSize => 0
  | SelImage => 1
  | SelRegion => 2
  end.

Definition selectorID (n : NewDroplet.t) (sel : Selector) : Z :=
  match sel with
  | SelSize => NewDroplet.SizeID n
  | SelImage => NewDroplet.ImageID n
  | SelRegion => NewDroplet.RegionID n
  end.

Definition selectorSlug (n : NewDroplet.t) (sel : Selector) : string :=
  match sel with
  | SelSize => NewDroplet.SizeSlug n
  | SelImage => NewDroplet.ImageSlug n
  | SelRegion => NewDroplet.RegionSlug n
  end.

(** Neither the numeric ID nor the slug of the selector is supplied. *)
Definition selectorMissing (n : NewDroplet.t) (sel : Selector) : Prop :=
  selectorID n sel = 0 /\ selectorSlug n sel = "".

(** [n] with the slug of one selector replaced. *)
Definition withSlug (n : NewDroplet.t) (sel : Selector) (slug : string)
    : NewDroplet.t :=
  match sel with
  | SelSize =>
      NewDroplet.mk (NewDroplet.Name n) (NewDroplet.SizeID n) slug
        (NewDroplet.ImageID n) (NewDroplet.ImageSlug n)
        (NewDroplet.RegionID n) (NewDroplet.RegionSlug n)
        (NewDroplet.SSHKeyIDs n) (NewDroplet.PrivateNetworking n)
        (NewDroplet.BackupsEnabled n)
  | SelImage =>
      NewDroplet.mk (NewDroplet.Name n) (NewDroplet.SizeID n)
        (NewDroplet.SizeSlug n) (NewDroplet.ImageID n) slug
        (NewDroplet.RegionID n) (NewDroplet.RegionSlug n)
        (NewDroplet.SSHKeyIDs n) (NewDroplet.PrivateNetworking n)
        (NewDroplet.BackupsEnabled n)
  | SelRegion =>
      NewDroplet.mk (NewDroplet.Name n) (NewDroplet.SizeID n)
        (NewDroplet.SizeSlug n) (NewDroplet.ImageID n)
        (NewDroplet.ImageSlug n) (NewDroplet.RegionID n) slug
        (NewDroplet.SSHKeyIDs n) (NewDroplet.PrivateNetworking n)
        (NewDroplet.BackupsEnabled n)
  end.

(** The selector parameter the specification asks for when exactly one
    form is used: the numeric ID when it is set, the slug otherwise. *)
Definition selectorParam (n : NewDroplet.t) (sel : Selector) : string :=
  if selectorID n sel =? 0
  then queryParam (selectorName sel ++ "_slug") (selectorSlug n sel)
  else queryParam (selectorName sel ++ "_id") (fmt.itoa (selectorID n sel)).

(** The optional parameters of a droplet creation, following the
    specification: a parameter is listed exactly when its field is not the
    zero value. *)
Definition dropletOptionalParams (n : NewDroplet.t)
    : list (string * string) :=
  (match NewDroplet.SSHKeyIDs n with
   | [] => []
   | _ :: _ => [("ssh_key_ids", strings.Join (NewDroplet.SSHKeyIDs n) ",")]
   end
   ++ (if NewDroplet.PrivateNetworking n
       then [("private_networking", "true")] else [])
   ++ (if NewDroplet.BackupsEnabled n
       then [("backups_enabled", "true")] else []))%list.

(** The optional parameters of a domain record, following the
    specification. *)
Definition recordOptionalParams (r : DomainRecord.t)
    : list (string * string) :=
  ((if (DomainRecord.Name r =? "")%string then []
    else [("name", DomainRecord.Name r)])
   ++ (if DomainRecord.Priority r =? 0 then []
       else [("priority", fmt.itoa (DomainRecord.Priority r))])
   ++ (if DomainRecord.Port r =? 0 then []
       else [("port", fmt.itoa (DomainRecord.Port r))])
   ++ (if DomainRecord.Weight r =? 0 then []
       else [("weight", fmt.itoa (DomainRecord.Weight r))]))%list.

(** Well-formedness of a request URL as the specification words it:
    exactly one question mark, and no ampersand before it. *)
Fixpoint countChar (a : ascii) (s : string) : nat :=
  match s with
  | EmptyString => 0
  | String b s' => (if (a =? b)%char then 1 else 0) + countChar a s'
  end.

Fixpoint beforeChar (a : ascii) (s : string) : string :=
  match s with
  | EmptyString => EmptyString
  | String b s' => if (a =? b)%char then EmptyString
                   else String b (beforeChar a s')
  end.

Definition wellFormedURL (url : string) : bool :=
  (countChar "?" url =? 1)%nat
  && negb (strings.Contains (beforeChar "?" url) "&").

(** The dynamic types the type switches of [ResizeDroplet] and of the
    image operations let through. *)
Definition isIntOrString (v : GoValue) : bool :=
  match v with
  | VInt _ | VString _ => true
  | VOther _ _ => false
  end.

(** The characters of a decimal numeral: digits and the minus sign. *)
Definition numeralChar (b : ascii) : bool :=
  (("0" <=? b) && (b <=? "9"))%char || (b =? "-")%char.

(** The two credentials of the client are the last two query parameters
    of the URL: the URL ends with them, and they are joined to what
    precedes as query parameters are, by an ampersand when a question
    mark has already opened the query and by the question mark that opens
    it when there is none before. *)
Definition endsWithCredentials (c : Client) (url : string) : Prop :=
  exists front sep,
    url = front ++ sep ++ "client_id=" ++ ClientID c
                ++ "&api_key=" ++ APIKey c
    /\ ((contains front "?" /\ sep = "&")
        \/ (~ contains front "?" /\ sep = "?")).

(** A continuation that issues no request of its own. *)
Definition quiet {A B : Type} (k : A -> IO B) : Prop :=
  forall a reqs, snd (k a reqs) = reqs.

(** The endpoint of a droplet creation, in closed form. *)
Definition createDropletEndpoint (n : NewDroplet.t) : string :=
  "/droplets/new?name=" ++ NewDroplet.Name n
    ++ selectorParam n SelSize ++ selectorParam n SelImage
    ++ selectorParam n SelRegion ++ queryParams (dropletOptionalParams n).

(** The endpoint of a record creation, in closed form. *)
Definition createDomainRecordEndpoint (ID : GoValue) (r : DomainRecord.t)
    : string :=
  "/domains/" ++ fmt.printValue ID ++ "/records/new?record_type="
    ++ DomainRecord.RecordType r ++ "&data=" ++ DomainRecord.Data r
    ++ queryParams (recordOptionalParams r).

(** ** Canned transports and decoders *)

Module Canned.

Definition client : Client := NewClient "id" "key".

(** A transport that answers every URL with the same body. *)
Definition respond (body : string) : string -> http.GetResult :=
  fun _ => http.Got (http.mkResponse (ioutil.mkReader body None)).

(** A transport whose responses break off while the body is read. *)
Definition breakOff (e : error) : string -> http.GetResult :=
  fun _ => http.Got (http.mkResponse (ioutil.mkReader "" (Some e))).

(** A decoder that knows one body and rejects every other. *)
Definition decodeAs {T : Type} (body : string) (v : T)
    : json.Unmarshaler T :=
  fun data i =>
    if (data =? body)%string then (v, None)
    else (i, Some (errorString "invalid character"))%string.

Definition quoted (s : string) : string :=
  String (ascii_of_nat 34) (s ++ String (ascii_of_nat 34) "").

Definition foo : Droplet.t :=
  Droplet.mk 5 "foo" 0 0 0 false "" "" false "" (time.mk 0 0).

(** The success envelope of the droplet lookup in the specification's
    example. *)
Definition okBody : string :=
  "{" ++ quoted "status" ++ ":" ++ quoted "OK" ++ ","
      ++ quoted "droplet" ++ ":{" ++ quoted "id" ++ ":5,"
      ++ quoted "name" ++ ":" ++ quoted "foo" ++ "}}".

Definition okEnvelope : DOResp.t Droplet.t := DOResp.mk "OK" foo "".

(** The error envelope of the specification's example. *)
Definition errorBody : string :=
  "{" ++ quoted "status" ++ ":" ++ quoted "ERROR" ++ ","
      ++ quoted "message" ++ ":" ++ quoted "not found" ++ "}".

Definition errorEnvelope : DOResp.t Droplet.t :=
  DOResp.mk "ERROR" zero "not found".

Definition record : DomainRecord.t :=
  DomainRecord.mk 5 0 "A" "" "1.2.3.4" 0 0 0.

Definition droplet : NewDroplet.t :=
  NewDroplet.mk "web" 66 "512mb" 0 "ubuntu" 1 "" [] false false.

(** A droplet request that names no size. *)
Definition sizeless : NewDroplet.t :=
  NewDroplet.mk "web" 0 "" 1 "" 1 "" [] false false.

(** A transport that cannot reach the server. *)
Definition refuse (e : error) : string -> http.GetResult :=
  fun _ => http.Failed e.

(** A decoder that stores a fixed value whatever the body is. *)
Definition always {T : Type} (v : T) : json.Unmarshaler T :=
  fun _ _ => (v, None).

(** A decoder that knows the empty body only. *)
Definition blank {T : Type} `{Zero T} : json.Unmarshaler T :=
  decodeAs "" zero.

(** A stand-in for [IP.String]. *)
Definition dotted : net.IP -> string := fun _ => "192.0.2.1".

(** An IPv4 address, as four bytes. *)
Definition address : net.IP := [Byte.xc0; Byte.x00; Byte.x02; Byte.x01].

(** A value of dynamic type float64, as [fmt] renders it. *)
Definition fraction : GoValue :=
  VOther "float64"
    (fun verb => if ((verb =? "v") || (verb =? "g") || (verb =? "f"))%char
                 then "1.5" else "%!" ++ String verb "(float64=1.5)").

End Canned.

(** * Properties *)

(** ** Strings *)

Lemma append_nil_r (s : string) : s ++ "" = s.
Proof. induction s as [|a s IH]; simpl; [reflexivity | now rewrite IH]. Qed.

Lemma append_assoc (s1 s2 s3 : string) : (s1 ++ s2) ++ s3 = s1 ++ (s2 ++ s3).
Proof. induction s1 as [|a s1 IH]; simpl; [reflexivity | now rewrite IH]. Qed.

Lemma Contains_char_cons (a b : ascii) (s : string) :
  strings.Contains (String a s) (String b "")
  = (b =? a)%char || strings.Contains s (String b "").
Proof.
  simpl. destruct (ascii_dec b a) as [->|Hne].
  - rewrite Ascii.eqb_refl. now destruct s.
  - apply Ascii.eqb_neq in Hne. now rewrite Hne.
Qed.

Lemma Contains_char_app (b : ascii) (s1 s2 : string) :
  strings.Contains (s1 ++ s2) (String b "")
  = strings.Contains s1 (String b "") || strings.Contains s2 (String b "").
Proof.
  induction s1 as [|a s1 IH].
  - reflexivity.
  - change (String a s1 ++ s2) with (String a (s1 ++ s2)).
    rewrite !Contains_char_cons, IH. now rewrite orb_assoc.
Qed.

Lemma prefix_append (sub t : string) :
  prefix sub t = true -> exists post, t = sub ++ post.
Proof.
  revert t. induction sub as [|b sub IH]; intros t H.
  - exists t. reflexivity.
  - destruct t as [|c t]; simpl in H; [discriminate|].
    destruct (ascii_dec b c) as [->|]; [|discriminate].
    destruct (IH _ H) as [post E]. exists post. simpl. now rewrite <- E.
Qed.

Lemma Contains_contains (s sub : string) :
  strings.Contains s sub = true -> contains s sub.
Proof.
  induction s as [|a s IH]; intros H.
  - exists "". apply prefix_append. cbn [strings.Contains] in H.
    now rewrite orb_false_r in H.
  - cbn [strings.Contains] in H. apply orb_true_iff in H. destruct H as [H|H].
    + exists "". now apply prefix_append.
    + destruct (IH H) as (pre & post & E). exists (String a pre), post.
      simpl. now rewrite E.
Qed.

Lemma prefix_app (sub post : string) : prefix sub (sub ++ post) = true.
Proof.
  induction sub as [|a sub IH]; simpl.
  - now destruct post.
  - destruct (ascii_dec a a) as [_|Hne]; [exact IH | now elim Hne].
Qed.

Lemma contains_Contains (s sub : string) :
  contains s sub -> strings.Contains s sub = true.
Proof.
  intros (pre & post & ->). induction pre as [|a pre IH].
  - change ("" ++ sub ++ post) with (sub ++ post).
    destruct (sub ++ post) eqn:E; cbn [strings.Contains];
      rewrite <- E, prefix_app; reflexivity.
  - change (String a pre ++ sub ++ post) with (String a (pre ++ sub ++ post)).
    cbn [strings.Contains]. rewrite IH. apply orb_true_r.
Qed.

Lemma length_append (a b : string) :
  String.length (a ++ b) = (String.length a + String.length b)%nat.
Proof. induction a as [|x a IH]; simpl; [reflexivity | now rewrite IH]. Qed.

(** A common ending can be taken off both sides. *)
Lemma append_inv_tail (s a b : string) : a ++ s = b ++ s -> a = b.
Proof.
  revert b. induction a as [|x a IH]; intros [|y b] E.
  - reflexivity.
  - apply (f_equal String.length) in E.
    change (String y b ++ s) with (String y (b ++ s)) in E.
    cbn [append String.length] in E. rewrite length_append in E. lia.
  - apply (f_equal String.length) in E.
    change (String x a ++ s) with (String x (a ++ s)) in E.
    cbn [append String.length] in E. rewrite length_append in E. lia.
  - cbn [append] in E. injection E as -> E. f_equal. now apply IH.
Qed.

(** Two strings that agree after one more character each agree, and so
    do the characters. *)
Lemma append_last_inj (a b : string) (x y : ascii) :
  a ++ String x "" = b ++ String y "" -> a = b /\ x = y.
Proof.
  revert b. induction a as [|u a IH]; intros [|v b] E; cbn [append] in E.
  - injection E as ->. now split.
  - injection E as _ E. destruct b; discriminate E.
  - injection E as _ E. destruct a; discriminate E.
  - injection E as -> E. destruct (IH _ E) as [-> ->]. now split.
Qed.

(** Decimal numerals consist of digits and a sign. *)
Lemma itoa_uint_no_char (b : ascii) (d : Decimal.uint) :
  numeralChar b = false ->
  strings.Contains (NilEmpty.string_of_uint d) (String b "") = false.
Proof.
  intros Hb.
  induction d; cbn [NilEmpty.string_of_uint]; try reflexivity;
    rewrite Contains_char_cons, IHd, orb_false_r;
    apply Ascii.eqb_neq; intros ->; discriminate.
Qed.

Lemma itoa_no_char (b : ascii) (n : Z) :
  numeralChar b = false ->
  strings.Contains (fmt.itoa n) (String b "") = false.
Proof.
  intros Hb. unfold fmt.itoa, NilZero.string_of_int.
  assert (Hu : forall d,
             strings.Contains (NilZero.string_of_uint d) (String b "") = false).
  { intros d. unfold NilZero.string_of_uint.
    destruct d; try apply itoa_uint_no_char; try assumption.
    rewrite Contains_char_cons. simpl.
    rewrite orb_false_r. apply Ascii.eqb_neq; intros ->; discriminate. }
  destruct (Z.to_int n) as [d|d].
  - apply Hu.
  - rewrite Contains_char_cons, Hu, orb_false_r.
    apply Ascii.eqb_neq; intros ->; discriminate.
Qed.

(** ** [fmt.Sprintf] at the program's format strings *)

Lemma Sprintf_two_strings (a b : string) :
  fmt.Sprintf "%s%s" [VString a; VString b] = a ++ b.
Proof. cbn. now rewrite append_nil_r. Qed.

Lemma Sprintf_credentials (c : Client) :
  fmt.Sprintf "client_id=%s&api_key=%s"
    [VString (ClientID c); VString (APIKey c)] = credentials c.
Proof. cbn. now rewrite append_nil_r. Qed.

Lemma Contains_APIURL (endpoint : string) :
  strings.Contains (APIURL ++ endpoint) "?" = strings.Contains endpoint "?".
Proof. now rewrite Contains_char_app. Qed.

(** An endpoint made of a path and numerals has no question mark, so
    [doGet] puts one before the credentials. *)
Lemma requestURL_numeral_path (c : Client) (before after : string) (n : Z) :
  strings.Contains before "?" = false ->
  strings.Contains after "?" = false ->
  requestURL c (before ++ fmt.itoa n ++ after)
  = APIURL ++ before ++ fmt.itoa n ++ after ++ "?" ++ credentials c.
Proof.
  intros Hb Ha. unfold requestURL.
  rewrite !Contains_char_app, Hb, Ha, itoa_no_char by reflexivity.
  cbn [orb]. now rewrite !append_assoc.
Qed.

(** ** The shared request helper *)

Section Helper.

Variable http_Get : string -> http.GetResult.
Context {T : Type} {json_T : json.Unmarshaler T}.

(** What [doGet] does from any state: it requests [requestURL c endpoint]
    and nothing else, and its outcome is decided by the transport's
    answer, the reading of the body and the decoding. *)
Lemma doGet_run (c : Client) (endpoint : string) (i : T)
    (reqs : list string) :
  doGet http_Get c endpoint i reqs =
  (match http_Get (requestURL c endpoint) with
   | http.Failed err => Returns (i, Some err)
   | http.Got resp =>
       match ioutil.failure (http.Body resp) with
       | Some err => Panics err
       | None =>
           match json.Unmarshal (ioutil.data (http.Body resp)) i with
           | (_, Some err) => Panics err
           | (i', None) => Returns (i', None)
           end
       end
   end, (reqs ++ [requestURL c endpoint])%list).
Proof.
  unfold doGet, bind, httpGet, ioutil.ReadAll.
  rewrite Sprintf_two_strings, Sprintf_credentials, Contains_APIURL.
  assert (E : (if negb (strings.Contains endpoint "?")
               then (APIURL ++ endpoint) ++ "?"
               else (APIURL ++ endpoint) ++ "&") ++ credentials c
              = requestURL c endpoint).
  { unfold requestURL.
    destruct (strings.Contains endpoint "?"); simpl negb; cbv iota;
      now rewrite !append_assoc. }
  rewrite E.
  destruct (http_Get (requestURL c endpoint)) as [resp|err];
    [|reflexivity].
  destruct (ioutil.failure (http.Body resp)); [reflexivity|].
  destruct (json.Unmarshal _ i) as [i' [err|]]; reflexivity.
Qed.

End Helper.

(** ** Calls that go through the helper *)



(** The predicate tells query parameters from text that merely ends the
    same way: credentials glued to a path with an ampersand, and
    credentials behind a second question mark, do not satisfy it. *)
Lemma endsWithCredentials_rejects_misjoined :
  ~ endsWithCredentials Canned.client
      "https://h/regions&client_id=id&api_key=key"
  /\ ~ endsWithCredentials Canned.client
        "https://h/a?x=1?client_id=id&api_key=key".
Proof.
  split; intros (front & sep & E & [[Hq ->]|[Hq ->]]);
    cbn [Canned.client ClientID APIKey] in E.
  - change "https://h/regions&client_id=id&api_key=key"
      with ("https://h/regions" ++ "&client_id=id&api_key=key") in E.
    apply append_inv_tail in E. subst front.
    apply contains_Contains in Hq. discriminate Hq.
  - change "https://h/regions&client_id=id&api_key=key"
      with (("https://h/regions" ++ "&") ++ "client_id=id&api_key=key") in E.
    change (front ++ "?" ++ "client_id=" ++ "id" ++ "&api_key=" ++ "key")
      with (front ++ "?" ++ "client_id=id&api_key=key") in E.
    rewrite <- append_assoc in E. apply append_inv_tail in E.
    apply append_last_inj in E. destruct E as [_ E]. discriminate E.
  - change "https://h/a?x=1?client_id=id&api_key=key"
      with (("https://h/a?x=1" ++ "?") ++ "client_id=id&api_key=key") in E.
    change (front ++ "&" ++ "client_id=" ++ "id" ++ "&api_key=" ++ "key")
      with (front ++ "&" ++ "client_id=id&api_key=key") in E.
    rewrite <- append_assoc in E. apply append_inv_tail in E.
    apply append_last_inj in E. destruct E as [_ E]. discriminate E.
  - change "https://h/a?x=1?client_id=id&api_key=key"
      with ("https://h/a?x=1" ++ "?client_id=id&api_key=key") in E.
    apply append_inv_tail in E. subst front.
    elim Hq. exists "https://h/a", "x=1". reflexivity.
Qed.

Lemma requests_bind_doGet (http_Get : string -> http.GetResult)
    {T : Type} {json_T : json.Unmarshaler T} {B : Type}
    (c : Client) (endpoint : string) (i : T)
    (k : T * option error -> IO B) :
  quiet k ->
  requests (bind (doGet http_Get c endpoint i) k) = [requestURL c endpoint].
Proof.
  intros Hk. unfold requests, run, bind. rewrite doGet_run.
  destruct (http_Get (requestURL c endpoint)) as [resp|err].
  - destruct (ioutil.failure (http.Body resp)); [reflexivity|].
    destruct (json.Unmarshal _ i) as [i' [err|]]; [reflexivity|].
    now rewrite Hk.
  - now rewrite Hk.
Qed.

Ltac quiet_continuation :=
  intros [? [?|]] ?; cbn [snd ret];
  try reflexivity;
  match goal with
  | |- context [if ?b then _ else _] => destruct b; reflexivity
  end.

Ltac split_validation :=
  repeat match goal with
         | |- context [if ?b then ret _ else _] => destruct b
         end.

(** Every call requests nothing, or the URL [doGet] composes for one
    endpoint. *)
Ltac call_requests :=
  cbv zeta; split_validation;
  first [ left; reflexivity
        | right; eexists; apply requests_bind_doGet; quiet_continuation ].

Section Calls.

Variable http_Get : string -> http.GetResult.
Variable IP_String : net.IP -> string.
Context {json_event : json.Unmarshaler (DOResp.t Event.t)}
        {json_regions : json.Unmarshaler (DOResp.t (list Region.t))}
        {json_sizes : json.Unmarshaler (DOResp.t (list Size.t))}
        {json_partial_droplet : json.Unmarshaler (DOResp.t PartialDroplet.t)}
        {json_event_id : json.Unmarshaler (DOResp.t Z)}
        {json_droplets : json.Unmarshaler (DOResp.t (list Droplet.t))}
        {json_droplet : json.Unmarshaler (DOResp.t Droplet.t)}
        {json_partial_domain : json.Unmarshaler (DOResp.t PartialDomain.t)}
        {json_status : json.Unmarshaler (DOResp.t unit)}
        {json_domains : json.Unmarshaler (DOResp.t (list Domain.t))}
        {json_domain : json.Unmarshaler (DOResp.t Domain.t)}
        {json_record : json.Unmarshaler (DOResp.t DomainRecord.t)}
        {json_records : json.Unmarshaler (DOResp.t (list DomainRecord.t))}
        {json_images : json.Unmarshaler (DOResp.t (list Image.t))}
        {json_image : json.Unmarshaler (DOResp.t Image.t)}.

Lemma callRequests_shape (c : Client) (call : Call) :
  callRequests http_Get IP_String c call = []
  \/ exists endpoint,
       callRequests http_Get IP_String c call = [requestURL c endpoint].
Proof.
  destruct call; cbn [callRequests].
  all: try (unfold GetEventByID, GetAllRegions, GetAllSizes, CreateDroplet,
    DeleteDropletByID, GetAllDroplets, GetDropletByID, RebootDroplet,
    PowerCycleDroplet, ShutDownDroplet, PowerOffDroplet, PowerOnDroplet,
    ResetRootPassDroplet, ResizeDroplet, TakeSnapshotOnDroplet,
    RestoreDroplet, RebuildDroplet, RenameDroplet, CreateDomain,
    DeleteDomainByID, GetAllDomains, GetDomainByID, CreateDomainRecord,
    GetAllRecordsByDomain, GetRecordByDomain, UpdateRecordByDomain,
    DeleteRecordByDomain, DeleteImage, GetAllImages, GetImageByID,
    TransferImage).
  all: try match goal with
           | |- context [match ?v with VInt _ => _ | _ => _ end] =>
               destruct v
           end.
  all: call_requests.
Qed.

End Calls.

Ltac normalize_strings :=
  repeat (progress (cbn; rewrite ?append_assoc, ?append_nil_r)).

Section Endpoints.

Variable http_Get : string -> http.GetResult.
Context {json_partial_droplet : json.Unmarshaler (DOResp.t PartialDroplet.t)}
        {json_record : json.Unmarshaler (DOResp.t DomainRecord.t)}.

Lemma CreateDroplet_requests (c : Client) (n : NewDroplet.t) :
  (forall sel, ~ selectorMissing n sel) ->
  requests (CreateDroplet http_Get c n)
  = [requestURL c (createDropletEndpoint n)].
Proof.
  intros Hvalid.
  pose proof (Hvalid SelSize) as Hs.
  pose proof (Hvalid SelImage) as Hi.
  pose proof (Hvalid SelRegion) as Hr.
  destruct n as [name sid sslug iid islug rid rslug keys priv backups].
  unfold selectorMissing in Hs, Hi, Hr. cbn in Hs, Hi, Hr.
  unfold CreateDroplet. cbn [NewDroplet.Name NewDroplet.SizeID
    NewDroplet.SizeSlug NewDroplet.ImageID NewDroplet.ImageSlug
    NewDroplet.RegionID NewDroplet.RegionSlug NewDroplet.SSHKeyIDs
    NewDroplet.PrivateNetworking NewDroplet.BackupsEnabled].
  unfold createDropletEndpoint, selectorParam, dropletOptionalParams.
  cbn [NewDroplet.Name NewDroplet.SizeID
    NewDroplet.SizeSlug NewDroplet.ImageID NewDroplet.ImageSlug
    NewDroplet.RegionID NewDroplet.RegionSlug NewDroplet.SSHKeyIDs
    NewDroplet.PrivateNetworking NewDroplet.BackupsEnabled
    selectorID selectorSlug selectorName].
  destruct (Z.eqb_spec sid 0) as [Es|Es];
    [destruct (String.eqb_spec sslug "") as [Es'|Es']; [tauto|] |];
  (destruct (Z.eqb_spec iid 0) as [Ei|Ei];
    [destruct (String.eqb_spec islug "") as [Ei'|Ei']; [tauto|] |]);
  (destruct (Z.eqb_spec rid 0) as [Er|Er];
    [destruct (String.eqb_spec rslug "") as [Er'|Er']; [tauto|] |]).
  all: cbn [andb negb]; cbv zeta.
  all: rewrite requests_bind_doGet by quiet_continuation.
  all: do 2 f_equal.
  all: destruct keys as [|k keys], priv, backups.
  all: cbn [List.length Z.of_nat Z.ltb Z.compare]; cbv iota.
  all: unfold queryParams, queryParam; cbn [map fst snd app String.concat].
  all: try match goal with
           | |- context [strings.Join ?l ?sep] =>
               generalize (strings.Join l sep); intros
           end.
  all: normalize_strings; reflexivity.
Qed.

Lemma CreateDomainRecord_requests (c : Client) (ID : GoValue)
    (r : DomainRecord.t) :
  DomainRecord.RecordType r <> "" ->
  DomainRecord.Data r <> "" ->
  requests (CreateDomainRecord http_Get c ID r)
  = [requestURL c (createDomainRecordEndpoint ID r)].
Proof.
  intros Htype Hdata.
  destruct r as [rid did rtype name data priority port weight].
  cbn in Htype, Hdata.
  unfold CreateDomainRecord, createDomainRecordEndpoint,
    recordOptionalParams.
  cbn [DomainRecord.RecordType DomainRecord.Data DomainRecord.Name
    DomainRecord.Priority DomainRecord.Port DomainRecord.Weight].
  destruct (String.eqb_spec rtype "") as [|_]; [contradiction|].
  destruct (String.eqb_spec data "") as [|_]; [contradiction|].
  cbv zeta. rewrite requests_bind_doGet by quiet_continuation.
  do 2 f_equal.
  assert (Ev : fmt.printArg "v" ID = fmt.printValue ID)
    by (destruct ID; reflexivity).
  destruct (String.eqb_spec name "") as [En|En];
    destruct (Z.eqb_spec priority 0) as [Ep|Ep];
    destruct (Z.eqb_spec port 0) as [Eo|Eo];
    destruct (Z.eqb_spec weight 0) as [Ew|Ew].
  all: cbn [negb]; cbv iota.
  all: unfold queryParams, queryParam; cbn [map fst snd app String.concat].
  all: cbn [fmt.Sprintf Ascii.eqb Bool.eqb]; cbv iota; rewrite Ev.
  all: generalize (fmt.printValue ID); intros.
  all: normalize_strings; reflexivity.
Qed.

(** What [UpdateRecordByDomain] requests for every record that passes
    its validation: the record ID lands under [record_type] as a bad verb,
    the record type under [data], and the data in an EXTRA report. *)
Lemma UpdateRecordByDomain_requests (c : Client) (domainID : GoValue)
    (r : DomainRecord.t) :
  DomainRecord.ID r <> 0 ->
  DomainRecord.RecordType r <> "" ->
  DomainRecord.Data r <> "" ->
  requests (UpdateRecordByDomain http_Get c domainID r)
  = [requestURL c
       ("/domains/" ++ fmt.printValue domainID
          ++ "/records/new?record_type=%!s(int="
          ++ fmt.itoa (DomainRecord.ID r) ++ ")&data="
          ++ DomainRecord.RecordType r
          ++ "%!(EXTRA string=" ++ DomainRecord.Data r ++ ")"
          ++ queryParams (recordOptionalParams r))].
Proof.
  intros Hid Htype Hdata.
  destruct r as [rid did rtype name data priority port weight].
  cbn in Hid, Htype, Hdata.
  unfold UpdateRecordByDomain, recordOptionalParams.
  cbn [DomainRecord.ID DomainRecord.RecordType DomainRecord.Data
    DomainRecord.Name DomainRecord.Priority DomainRecord.Port
    DomainRecord.Weight].
  destruct (Z.eqb_spec rid 0) as [|_]; [contradiction|].
  destruct (String.eqb_spec rtype "") as [|_]; [contradiction|].
  destruct (String.eqb_spec data "") as [|_]; [contradiction|].
  cbv zeta. rewrite requests_bind_doGet by quiet_continuation.
  do 2 f_equal.
  assert (Ev : fmt.printArg "v" domainID = fmt.printValue domainID)
    by (destruct domainID; reflexivity).
  destruct (String.eqb_spec name "") as [En|En];
    destruct (Z.eqb_spec priority 0) as [Ep|Ep];
    destruct (Z.eqb_spec port 0) as [Eo|Eo];
    destruct (Z.eqb_spec weight 0) as [Ew|Ew].
  all: cbn [negb]; cbv iota.
  all: unfold queryParams, queryParam; cbn [map fst snd app String.concat].
  all: cbn [fmt.Sprintf fmt.printArg fmt.badVerb fmt.typeName fmt.printValue
            fmt.extraArgs Ascii.eqb Bool.eqb orb];
       cbv iota; rewrite Ev.
  all: generalize (fmt.printValue domainID); intros.
  all: normalize_strings; reflexivity.
Qed.

End Endpoints.

(** ** The claims *)

Section Claims.

Variable http_Get : string -> http.GetResult.
Variable IP_String : net.IP -> string.
Context {json_event : json.Unmarshaler (DOResp.t Event.t)}
        {json_regions : json.Unmarshaler (DOResp.t (list Region.t))}
        {json_sizes : json.Unmarshaler (DOResp.t (list Size.t))}
        {json_partial_droplet : json.Unmarshaler (DOResp.t PartialDroplet.t)}
        {json_event_id : json.Unmarshaler (DOResp.t Z)}
        {json_droplets : json.Unmarshaler (DOResp.t (list Droplet.t))}
        {json_droplet : json.Unmarshaler (DOResp.t Droplet.t)}
        {json_partial_domain : json.Unmarshaler (DOResp.t PartialDomain.t)}
        {json_status : json.Unmarshaler (DOResp.t unit)}
        {json_domains : json.Unmarshaler (DOResp.t (list Domain.t))}
        {json_domain : json.Unmarshaler (DOResp.t Domain.t)}
        {json_record : json.Unmarshaler (DOResp.t DomainRecord.t)}
        {json_records : json.Unmarshaler (DOResp.t (list DomainRecord.t))}
        {json_images : json.Unmarshaler (DOResp.t (list Image.t))}
        {json_image : json.Unmarshaler (DOResp.t Image.t)}.

(** The sibling [CreateDomain] does validate its name: an empty one is
    refused before any request. *)
Lemma CreateDomain_rejects_empty_name (c : Client) (IP : net.IP) :
  run (CreateDomain http_Get IP_String c "" IP)
  = (Returns (None, Some (errorString "name must be set")), []).
Proof. reflexivity. Qed.

(** The sibling [RestoreDroplet] starts its parameter with a question
    mark, and the URL it requests is well-formed. *)
Lemma RestoreDroplet_request_well_formed :
  requests (RestoreDroplet http_Get Canned.client 5 7)
  = ["https://api.digitalocean.com/v1/droplets/5/restore?image_id=7&client_id=id&api_key=key"]
  /\ Forall (fun url => wellFormedURL url = true)
       (requests (RestoreDroplet http_Get Canned.client 5 7)).
Proof.
  assert (E : requests (RestoreDroplet http_Get Canned.client 5 7)
              = ["https://api.digitalocean.com/v1/droplets/5/restore?image_id=7&client_id=id&api_key=key"]).
  { unfold RestoreDroplet.
    rewrite requests_bind_doGet by quiet_continuation. reflexivity. }
  rewrite E. split; [reflexivity|]. repeat constructor.
Qed.

(** C1, at a record that passes validation.  For domain 1 and the record
    with ID 5, type A and data 1.2.3.4, [UpdateRecordByDomain] requests a
    URL whose [record_type] parameter is the bad-verb rendering of the
    record ID and whose [data] parameter is the record type followed by
    an EXTRA report of the data: the format string has three verbs for
    four operands. *)
Theorem UpdateRecordByDomain_shifts_operands :
  requests (UpdateRecordByDomain http_Get Canned.client (VInt 1)
              Canned.record)
  = ["https://api.digitalocean.com/v1/domains/1/records/new?record_type=%!s(int=5)&data=A%!(EXTRA string=1.2.3.4)&client_id=id&api_key=key"].
Proof.
  unfold UpdateRecordByDomain, Canned.record.
  cbn [DomainRecord.ID DomainRecord.RecordType DomainRecord.Data
       DomainRecord.Name DomainRecord.Priority DomainRecord.Port
       DomainRecord.Weight Z.eqb String.eqb Ascii.eqb Bool.eqb negb].
  cbv zeta. rewrite requests_bind_doGet by quiet_continuation.
  reflexivity.
Qed.

(** C2, at a droplet without a name.  With the three selectors set and
    an empty [Name], [CreateDroplet] raises no validation error: it
    requests the creation URL with an empty [name] parameter. *)
Theorem CreateDroplet_empty_name_is_requested :
  requests (CreateDroplet http_Get Canned.client
              (NewDroplet.mk "" 66 "" 1 "" 1 "" [] false false))
  = ["https://api.digitalocean.com/v1/droplets/new?name=&size_id=66&image_id=1&region_id=1&client_id=id&api_key=key"].
Proof.
  rewrite CreateDroplet_requests.
  - reflexivity.
  - intros [] [H _]; discriminate H.
Qed.

(** For every droplet and every integer size, the size parameter of
    [ResizeDroplet] is written before the question mark that [doGet]
    adds. *)
Lemma ResizeDroplet_int_request (c : Client) (ID size : Z) :
  requests (ResizeDroplet http_Get c ID (VInt size))
  = [APIURL ++ "/droplets/" ++ fmt.itoa ID ++ "/resize&size_id="
       ++ fmt.itoa size ++ "?" ++ credentials c].
Proof.
  unfold ResizeDroplet. cbv zeta.
  rewrite requests_bind_doGet by quiet_continuation.
  do 2 f_equal.
  replace (fmt.Sprintf "/droplets/%d/resize" [VInt ID]
             ++ fmt.Sprintf "&size_id=%d" [VInt size])
    with ("/droplets/" ++ fmt.itoa ID ++ "/resize&size_id=" ++ fmt.itoa size)
    by (normalize_strings; reflexivity).
  unfold requestURL.
  rewrite !Contains_char_app, !itoa_no_char by reflexivity.
  cbn [orb strings.Contains prefix ascii_dec]. 
  now rewrite !append_assoc.
Qed.

(** C3, at two calls.  [ResizeDroplet] on droplet 5 with size 2 and
    [TakeSnapshotOnDroplet] on droplet 5 with the name nightly each
    request a URL in which the operation's own parameter is joined to the
    path with an ampersand and comes before the only question mark, so
    neither URL is well-formed. *)
Theorem ResizeDroplet_parameter_precedes_question_mark :
  requests (ResizeDroplet http_Get Canned.client 5 (VInt 2))
  = ["https://api.digitalocean.com/v1/droplets/5/resize&size_id=2?client_id=id&api_key=key"]
  /\ requests (TakeSnapshotOnDroplet http_Get Canned.client 5 "nightly")
     = ["https://api.digitalocean.com/v1/droplets/5/snapshot&name=nightly?client_id=id&api_key=key"]
  /\ Forall (fun url => wellFormedURL url = false)
       (requests (ResizeDroplet http_Get Canned.client 5 (VInt 2))
        ++ requests (TakeSnapshotOnDroplet http_Get Canned.client 5
                       "nightly"))%list.
Proof.
  assert (E1 : requests (ResizeDroplet http_Get Canned.client 5 (VInt 2))
               = ["https://api.digitalocean.com/v1/droplets/5/resize&size_id=2?client_id=id&api_key=key"]).
  { unfold ResizeDroplet. cbv zeta.
    rewrite requests_bind_doGet by quiet_continuation. reflexivity. }
  assert (E2 : requests (TakeSnapshotOnDroplet http_Get Canned.client 5
                           "nightly")
               = ["https://api.digitalocean.com/v1/droplets/5/snapshot&name=nightly?client_id=id&api_key=key"]).
  { unfold TakeSnapshotOnDroplet. cbv zeta.
    rewrite requests_bind_doGet by quiet_continuation. reflexivity. }
  rewrite E1, E2. repeat split.
  repeat constructor.
Qed.

(** C4.  If a selector of the new droplet has neither its numeric ID nor
    its slug, [CreateDroplet] returns a nil droplet and the validation
    error that names a selector lacking both, the first such one in the
    order size, image, region (so the given one when none before it is
    missing), and hands no URL to the transport. *)
Theorem CreateDroplet_rejects_missing_selector
    (c : Client) (n : NewDroplet.t) (sel : Selector) :
  selectorMissing n sel ->
  exists first,
    selectorMissing n first
    /\ (selectorRank first <= selectorRank sel)%nat
    /\ run (CreateDroplet http_Get c n)
       = (Returns (None,
                   Some (errorString
                           (selectorName first ++ " ID or slug must be set"))),
          []).
Proof.
  intros Hmiss.
  destruct n as [name sid sslug iid islug rid rslug keys priv backups].
  unfold selectorMissing in *. unfold CreateDroplet.
  cbn [NewDroplet.SizeID NewDroplet.SizeSlug NewDroplet.ImageID
       NewDroplet.ImageSlug NewDroplet.RegionID NewDroplet.RegionSlug].
  destruct (Z.eqb_spec sid 0) as [Es|Es];
    [destruct (String.eqb_spec sslug "") as [Es'|Es']|].
  1: { exists SelSize. cbn. repeat split; auto. destruct sel; cbn; lia. }
  all: destruct (Z.eqb_spec iid 0) as [Ei|Ei];
    [destruct (String.eqb_spec islug "") as [Ei'|Ei']|].
  all: try (destruct sel; cbn in Hmiss; try (exfalso; tauto);
            exists SelImage; cbn; repeat split; auto; fail).
  all: destruct (Z.eqb_spec rid 0) as [Er|Er];
    [destruct (String.eqb_spec rslug "") as [Er'|Er']|].
  all: destruct sel; cbn in Hmiss; try (exfalso; tauto).
  all: exists SelRegion; cbn; repeat split; auto.
Qed.

(** C5.  [ResizeDroplet] takes a size of dynamic type int or string, for
    which it issues its request with the size formatted into the
    endpoint; for a size of any other dynamic type it returns event ID 0
    and the type error, and hands no URL to the transport. *)
Theorem ResizeDroplet_size_types (c : Client) (ID : Z) :
  (forall ty render,
      run (ResizeDroplet http_Get c ID (VOther ty render))
      = (Returns (0, Some (errorString
                             "size must be either a string or integer")),
         []))
  /\ (forall size,
        requests (ResizeDroplet http_Get c ID (VInt size))
        = [requestURL c ("/droplets/" ++ fmt.itoa ID ++ "/resize&size_id="
                           ++ fmt.itoa size)])
  /\ (forall slug,
        requests (ResizeDroplet http_Get c ID (VString slug))
        = [requestURL c ("/droplets/" ++ fmt.itoa ID
                           ++ "/resize&size_slug=" ++ slug)]).
Proof.
  split; [|split]; intros; unfold ResizeDroplet; cbv zeta.
  - reflexivity.
  - rewrite requests_bind_doGet by quiet_continuation.
    do 2 f_equal. normalize_strings. reflexivity.
  - rewrite requests_bind_doGet by quiet_continuation.
    do 2 f_equal. normalize_strings. reflexivity.
Qed.

(** C6.  Once validation passes, the URL [CreateDomainRecord] requests
    is the required part followed by one parameter for each of name,
    priority, port and weight that is not the zero value, and nothing for
    those that are; the URL [CreateDroplet] requests is the name and the
    three selector parameters followed by one parameter for a non-empty
    SSH key list and for each flag that is set, and nothing for the
    others; the credentials follow in both. *)
Theorem optional_zero_fields_are_omitted (c : Client) :
  (forall ID r,
      DomainRecord.RecordType r <> "" ->
      DomainRecord.Data r <> "" ->
      requests (CreateDomainRecord http_Get c ID r)
      = [APIURL ++ "/domains/" ++ fmt.printValue ID
           ++ "/records/new?record_type=" ++ DomainRecord.RecordType r
           ++ "&data=" ++ DomainRecord.Data r
           ++ queryParams (recordOptionalParams r)
           ++ "&" ++ credentials c])
  /\ (forall n,
        (forall sel, ~ selectorMissing n sel) ->
        requests (CreateDroplet http_Get c n)
        = [APIURL ++ "/droplets/new?name=" ++ NewDroplet.Name n
             ++ selectorParam n SelSize ++ selectorParam n SelImage
             ++ selectorParam n SelRegion
             ++ queryParams (dropletOptionalParams n)
             ++ "&" ++ credentials c]).
Proof.
  split.
  - intros ID r Htype Hdata.
    rewrite CreateDomainRecord_requests by assumption.
    unfold requestURL, createDomainRecordEndpoint.
    rewrite !Contains_char_app.
    replace (strings.Contains "/records/new?record_type=" "?")
      with true by reflexivity.
    rewrite orb_true_l, orb_true_r. now rewrite !append_assoc.
  - intros n Hvalid.
    rewrite CreateDroplet_requests by assumption.
    unfold requestURL, createDropletEndpoint.
    rewrite !Contains_char_app.
    replace (strings.Contains "/droplets/new?name=" "?")
      with true by reflexivity.
    rewrite orb_true_l. now rewrite !append_assoc.
Qed.


(** C8.  When the transport answers the lookup of droplet [ID] and the
    body decodes into an envelope, [GetDropletByID] returns the
    envelope's droplet and a nil error if the status is OK, and a nil
    droplet and an error whose text contains the envelope's message and
    the decimal ID if the status is ERROR. *)
Theorem GetDropletByID_follows_envelope (c : Client) (ID : Z)
    (resp : http.Response) (env : DOResp.t Droplet.t) :
  http_Get (APIURL ++ "/droplets/" ++ fmt.itoa ID ++ "?" ++ credentials c)
  = http.Got resp ->
  ioutil.failure (http.Body resp) = None ->
  json.Unmarshal (ioutil.data (http.Body resp)) (zero : DOResp.t Droplet.t)
  = (env, None) ->
  (DOResp.Status env = StatusOK ->
   outcome (GetDropletByID http_Get c ID)
   = Returns (Some (DOResp.Payload env), None))
  /\ (DOResp.Status env = StatusError ->
      exists err,
        outcome (GetDropletByID http_Get c ID) = Returns (None, Some err)
        /\ contains (Error err) (DOResp.Message env)
        /\ contains (Error err) (fmt.itoa ID)).
Proof.
  intros Hget Hread Hdecode.
  assert (Eend : fmt.Sprintf "/droplets/%d" [VInt ID]
                 = "/droplets/" ++ fmt.itoa ID)
    by (normalize_strings; reflexivity).
  assert (Eurl : requestURL c ("/droplets/" ++ fmt.itoa ID)
                 = APIURL ++ "/droplets/" ++ fmt.itoa ID ++ "?"
                     ++ credentials c).
  { rewrite <- (append_nil_r (fmt.itoa ID)) at 1.
    rewrite requestURL_numeral_path by reflexivity. reflexivity. }
  assert (Erun : outcome (GetDropletByID http_Get c ID)
                 = if (DOResp.Status env =? StatusError)%string
                   then Returns
                          (None,
                           Some (errorString
                                   ("could not get droplet with ID "
                                      ++ fmt.itoa ID ++ ": "
                                      ++ DOResp.Message env)))
                   else Returns (Some (DOResp.Payload env), None)).
  { unfold outcome, run, GetDropletByID, bind.
    rewrite doGet_run, Eend, Eurl, Hget, Hread, Hdecode.
    destruct (DOResp.Status env =? StatusError)%string; cbn [fst ret].
    - unfold fmt.Errorf. do 4 f_equal. normalize_strings. reflexivity.
    - reflexivity. }
  split; intros Hstatus; rewrite Erun, Hstatus.
  - reflexivity.
  - eexists. split; [reflexivity|]. cbn [Error]. split.
    + exists ("could not get droplet with ID " ++ fmt.itoa ID ++ ": "), "".
      now rewrite append_nil_r, !append_assoc.
    + exists "could not get droplet with ID ",
             (": " ++ DOResp.Message env). reflexivity.
Qed.

(** C9.  When the transport answers and reading the body fails, [doGet]
    panics with the read error; when the body is read and does not
    decode into the destination, [doGet] panics with the decode error.
    In neither case does it return to its caller. *)
Theorem doGet_panics_on_bad_body {T : Type} {json_T : json.Unmarshaler T}
    (c : Client) (endpoint : string) (i : T) (resp : http.Response) :
  http_Get (requestURL c endpoint) = http.Got resp ->
  (forall e,
      ioutil.failure (http.Body resp) = Some e ->
      outcome (doGet http_Get c endpoint i) = Panics e)
  /\ (forall i' e,
        ioutil.failure (http.Body resp) = None ->
        json.Unmarshal (ioutil.data (http.Body resp)) i = (i', Some e) ->
        outcome (doGet http_Get c endpoint i) = Panics e).
Proof.
  intros Hget. unfold outcome, run. rewrite doGet_run, Hget. split.
  - intros e Hread. now rewrite Hread.
  - intros i' e Hread Hdecode. now rewrite Hread, Hdecode.
Qed.

(** C10.  When no selector of the new droplet is missing and one of them
    has both a non-zero numeric ID and a non-empty slug, [CreateDroplet]
    issues its request, the parameter of that selector is the numeric
    ID, and the whole run is the same whatever the slug of that selector
    is. *)
Theorem CreateDroplet_prefers_numeric_id
    (c : Client) (n : NewDroplet.t) (sel : Selector) :
  (forall s, ~ selectorMissing n s) ->
  selectorID n sel <> 0 ->
  selectorSlug n sel <> "" ->
  requests (CreateDroplet http_Get c n)
  = [requestURL c
       ("/droplets/new?name=" ++ NewDroplet.Name n
          ++ selectorParam n SelSize ++ selectorParam n SelImage
          ++ selectorParam n SelRegion
          ++ queryParams (dropletOptionalParams n))]
  /\ selectorParam n sel
     = "&" ++ selectorName sel ++ "_id=" ++ fmt.itoa (selectorID n sel)
  /\ (forall slug,
        run (CreateDroplet http_Get c (withSlug n sel slug))
        = run (CreateDroplet http_Get c n)).
Proof.
  intros Hvalid Hid Hslug. split; [|split].
  - now apply CreateDroplet_requests.
  - unfold selectorParam, queryParam.
    destruct (Z.eqb_spec (selectorID n sel) 0) as [|_]; [contradiction|].
    now rewrite append_assoc.
  - intros slug.
    destruct n as [name sid sslug iid islug rid rslug keys priv backups].
    destruct sel; cbn in Hid; unfold withSlug, CreateDroplet, run;
      cbn [NewDroplet.Name NewDroplet.SizeID
        NewDroplet.SizeSlug NewDroplet.ImageID NewDroplet.ImageSlug
        NewDroplet.RegionID NewDroplet.RegionSlug NewDroplet.SSHKeyIDs
        NewDroplet.PrivateNetworking NewDroplet.BackupsEnabled].
    + destruct (Z.eqb_spec sid 0) as [|_]; [contradiction|].
      cbn [andb negb]. reflexivity.
    + destruct (Z.eqb_spec iid 0) as [|_]; [contradiction|].
      cbn [andb negb]. reflexivity.
    + destruct (Z.eqb_spec rid 0) as [|_]; [contradiction|].
      cbn [andb negb]. reflexivity.
Qed.

End Claims.

(** ** The claims at concrete inputs *)

(** C4 at a droplet that names no size. *)
Lemma CreateDroplet_rejects_missing_selector_witness :
  selectorMissing Canned.sizeless SelSize
  /\ exists first,
       selectorMissing Canned.sizeless first
       /\ (selectorRank first <= selectorRank SelSize)%nat
       /\ run (CreateDroplet (Canned.respond "")
                 (json_partial_droplet := Canned.decodeAs "" zero)
                 Canned.client Canned.sizeless)
          = (Returns (None,
                      Some (errorString
                              (selectorName first
                                 ++ " ID or slug must be set"))),
             []).
Proof.
  assert (H : selectorMissing Canned.sizeless SelSize)
    by (split; reflexivity).
  split; [exact H|].
  exact (CreateDroplet_rejects_missing_selector (Canned.respond "")
           (json_partial_droplet := Canned.decodeAs "" zero)
           Canned.client Canned.sizeless SelSize H).
Defined.

(** C6 at a record and a droplet whose optional fields are all zero. *)
Lemma optional_zero_fields_are_omitted_witness :
  requests (CreateDomainRecord (Canned.respond "")
              (json_record := Canned.decodeAs "" zero)
              Canned.client (VString "example.com") Canned.record)
  = ["https://api.digitalocean.com/v1/domains/example.com/records/new?record_type=A&data=1.2.3.4&client_id=id&api_key=key"]
  /\ requests (CreateDroplet (Canned.respond "")
                 (json_partial_droplet := Canned.decodeAs "" zero)
                 Canned.client Canned.droplet)
     = ["https://api.digitalocean.com/v1/droplets/new?name=web&size_id=66&image_slug=ubuntu&region_id=1&client_id=id&api_key=key"].
Proof.
  pose proof (optional_zero_fields_are_omitted (Canned.respond "")
                (json_partial_droplet := Canned.decodeAs "" zero)
                (json_record := Canned.decodeAs "" zero)
                Canned.client) as [Hrecord Hdroplet].
  split.
  - apply (Hrecord (VString "example.com") Canned.record); discriminate.
  - apply (Hdroplet Canned.droplet).
    intros [] [Hid Hslug]; discriminate.
Defined.

(** C8 at the two envelopes of the specification's example, for droplet
    5. *)
Lemma GetDropletByID_follows_envelope_witness :
  outcome (GetDropletByID (Canned.respond Canned.okBody)
             (json_droplet := Canned.decodeAs Canned.okBody Canned.okEnvelope)
             Canned.client 5)
  = Returns (Some Canned.foo, None)
  /\ Droplet.ID Canned.foo = 5
  /\ Droplet.Name Canned.foo = "foo"
  /\ exists err,
       outcome (GetDropletByID (Canned.respond Canned.errorBody)
                  (json_droplet :=
                     Canned.decodeAs Canned.errorBody Canned.errorEnvelope)
                  Canned.client 5)
       = Returns (None, Some err)
       /\ contains (Error err) "not found"
       /\ contains (Error err) "5".
Proof.
  split; [|split; [reflexivity|split; [reflexivity|]]].
  - apply (proj1 (GetDropletByID_follows_envelope
                    (Canned.respond Canned.okBody)
                    (json_droplet :=
                       Canned.decodeAs Canned.okBody Canned.okEnvelope)
                    Canned.client 5
                    (http.mkResponse (ioutil.mkReader Canned.okBody None))
                    Canned.okEnvelope eq_refl eq_refl eq_refl)).
    reflexivity.
  - apply (proj2 (GetDropletByID_follows_envelope
                    (Canned.respond Canned.errorBody)
                    (json_droplet :=
                       Canned.decodeAs Canned.errorBody Canned.errorEnvelope)
                    Canned.client 5
                    (http.mkResponse (ioutil.mkReader Canned.errorBody None))
                    Canned.errorEnvelope eq_refl eq_refl eq_refl)).
    reflexivity.
Defined.

(** C9 at a response whose body breaks off and at one whose body is not
    the envelope the decoder knows. *)
Lemma doGet_panics_on_bad_body_witness :
  outcome (doGet (Canned.breakOff (errorString "unexpected EOF"))
             (json_T := Canned.decodeAs Canned.okBody Canned.okEnvelope)
             Canned.client "/droplets/5" zero)
  = Panics (errorString "unexpected EOF")
  /\ outcome (doGet (Canned.respond "<html>")
                (json_T := Canned.decodeAs Canned.okBody Canned.okEnvelope)
                Canned.client "/droplets/5" zero)
     = Panics (errorString "invalid character").
Proof.
  split.
  - apply (proj1 (doGet_panics_on_bad_body
                    (Canned.breakOff (errorString "unexpected EOF"))
                    (json_T := Canned.decodeAs Canned.okBody Canned.okEnvelope)
                    Canned.client "/droplets/5" zero
                    (http.mkResponse
                       (ioutil.mkReader "" (Some (errorString "unexpected EOF"))))
                    eq_refl)).
    reflexivity.
  - apply (proj2 (doGet_panics_on_bad_body
                    (Canned.respond "<html>")
                    (json_T := Canned.decodeAs Canned.okBody Canned.okEnvelope)
                    Canned.client "/droplets/5" zero
                    (http.mkResponse (ioutil.mkReader "<html>" None))
                    eq_refl) zero); reflexivity.
Defined.

(** C10 at a droplet that gives both the size ID 66 and a size slug. *)
Lemma CreateDroplet_prefers_numeric_id_witness :
  requests (CreateDroplet (Canned.respond "")
              (json_partial_droplet := Canned.decodeAs "" zero)
              Canned.client Canned.droplet)
  = ["https://api.digitalocean.com/v1/droplets/new?name=web&size_id=66&image_slug=ubuntu&region_id=1&client_id=id&api_key=key"]
  /\ selectorParam Canned.droplet SelSize = "&size_id=66"
  /\ (forall slug,
        run (CreateDroplet (Canned.respond "")
               (json_partial_droplet := Canned.decodeAs "" zero)
               Canned.client (withSlug Canned.droplet SelSize slug))
        = run (CreateDroplet (Canned.respond "")
                 (json_partial_droplet := Canned.decodeAs "" zero)
                 Canned.client Canned.droplet)).
Proof.
  apply (CreateDroplet_prefers_numeric_id (Canned.respond "")
           (json_partial_droplet := Canned.decodeAs "" zero)
           Canned.client Canned.droplet SelSize).
  - intros [] [Hid Hslug]; discriminate.
  - discriminate.
  - discriminate.
Defined.


(** * Further properties of the client *)

(** ** What a call through the helper comes to *)

Section Through.

Variable http_Get : string -> http.GetResult.
Context {T : Type} {json_T : json.Unmarshaler T} {B : Type}.

Lemma bind_doGet_failed (c : Client) (endpoint : string) (i : T)
    (k : T * option error -> IO B) (err : error) :
  http_Get (requestURL c endpoint) = http.Failed err ->
  run (bind (doGet http_Get c endpoint i) k)
  = k (i, Some err) [requestURL c endpoint].
Proof.
  intros Hget. unfold run, bind. now rewrite doGet_run, Hget.
Qed.

Lemma bind_doGet_unreadable (c : Client) (endpoint : string) (i : T)
    (k : T * option error -> IO B) (resp : http.Response) (e : error) :
  http_Get (requestURL c endpoint) = http.Got resp ->
  ioutil.failure (http.Body resp) = Some e ->
  run (bind (doGet http_Get c endpoint i) k)
  = (Panics e, [requestURL c endpoint]).
Proof.
  intros Hget Hread. unfold run, bind. now rewrite doGet_run, Hget, Hread.
Qed.

Lemma bind_doGet_decoded (c : Client) (endpoint : string) (i : T)
    (k : T * option error -> IO B) (resp : http.Response) (env : T) :
  http_Get (requestURL c endpoint) = http.Got resp ->
  ioutil.failure (http.Body resp) = None ->
  json.Unmarshal (ioutil.data (http.Body resp)) i = (env, None) ->
  run (bind (doGet http_Get c endpoint i) k)
  = k (env, None) [requestURL c endpoint].
Proof.
  intros Hget Hread Hdecode. unfold run, bind.
  now rewrite doGet_run, Hget, Hread, Hdecode.
Qed.

End Through.

Ltac unfold_operations :=
  unfold GetEventByID, GetAllRegions, GetAllSizes, CreateDroplet,
    DeleteDropletByID, GetAllDroplets, GetDropletByID, RebootDroplet,
    PowerCycleDroplet, ShutDownDroplet, PowerOffDroplet, PowerOnDroplet,
    ResetRootPassDroplet, ResizeDroplet, TakeSnapshotOnDroplet,
    RestoreDroplet, RebuildDroplet, RenameDroplet, CreateDomain,
    DeleteDomainByID, GetAllDomains, GetDomainByID, CreateDomainRecord,
    GetAllRecordsByDomain, GetRecordByDomain, UpdateRecordByDomain,
    DeleteRecordByDomain, DeleteImage, GetAllImages, GetImageByID,
    TransferImage in *.

(** Splits a call into the branches of its type switch and of its
    validation; in each branch the call either returns at once or goes
    through [doGet]. *)
Ltac split_call :=
  unfold_operations; cbv zeta in *;
  try match goal with
      | |- context [match ?v with VInt _ => _ | _ => _ end] => destruct v
      end;
  repeat match goal with
         | |- context [if ?b then ret _ else _] => destruct b
         end.

(** In a branch that goes through [doGet], names the URL requested. *)
Ltac requested_url H :=
  first [ discriminate H
        | rewrite requests_bind_doGet in H by quiet_continuation;
          injection H as <- ].

Section Family.

Variable http_Get : string -> http.GetResult.
Variable IP_String : net.IP -> string.
Context {json_event : json.Unmarshaler (DOResp.t Event.t)}
        {json_regions : json.Unmarshaler (DOResp.t (list Region.t))}
        {json_sizes : json.Unmarshaler (DOResp.t (list Size.t))}
        {json_partial_droplet : json.Unmarshaler (DOResp.t PartialDroplet.t)}
        {json_event_id : json.Unmarshaler (DOResp.t Z)}
        {json_droplets : json.Unmarshaler (DOResp.t (list Droplet.t))}
        {json_droplet : json.Unmarshaler (DOResp.t Droplet.t)}
        {json_partial_domain : json.Unmarshaler (DOResp.t PartialDomain.t)}
        {json_status : json.Unmarshaler (DOResp.t unit)}
        {json_domains : json.Unmarshaler (DOResp.t (list Domain.t))}
        {json_domain : json.Unmarshaler (DOResp.t Domain.t)}
        {json_record : json.Unmarshaler (DOResp.t DomainRecord.t)}
        {json_records : json.Unmarshaler (DOResp.t (list DomainRecord.t))}
        {json_images : json.Unmarshaler (DOResp.t (list Image.t))}
        {json_image : json.Unmarshaler (DOResp.t Image.t)}.

(** X1.  If the transport fails on the URL a call requests, the call
    returns that very error, together with the zero value of its payload,
    and does not panic; this holds for every operation of the client. *)
Theorem transport_error_is_returned_unchanged
    (c : Client) (call : Call) (url : string) (err : error) :
  callRequests http_Get IP_String c call = [url] ->
  http_Get url = http.Failed err ->
  callSummary http_Get IP_String c call = Returns (true, Some err).
Proof.
  intros Hreq Hget.
  destruct call; cbn [callRequests callSummary] in *; split_call;
    requested_url Hreq;
    unfold summarize, summarizeError, outcome;
    rewrite (bind_doGet_failed _ _ _ _ _ _ Hget); reflexivity.
Qed.

(** X2.  If the transport answers the URL a call requests and reading the
    body fails, the call panics with the read error instead of returning;
    this holds for every operation of the client. *)
Theorem unreadable_body_panics_every_call
    (c : Client) (call : Call) (url : string) (resp : http.Response)
    (e : error) :
  callRequests http_Get IP_String c call = [url] ->
  http_Get url = http.Got resp ->
  ioutil.failure (http.Body resp) = Some e ->
  callSummary http_Get IP_String c call = Panics e.
Proof.
  intros Hreq Hget Hread.
  destruct call; cbn [callRequests callSummary] in *; split_call;
    requested_url Hreq;
    unfold summarize, summarizeError, outcome;
    rewrite (bind_doGet_unreadable _ _ _ _ _ _ _ Hget Hread); reflexivity.
Qed.

(** X3.  No call hands more than one URL to the transport, and a call
    that hands it none returns an error and the zero value of its
    payload: no operation succeeds without a request, and none repeats
    one. *)
Theorem at_most_one_request_and_none_means_error
    (c : Client) (call : Call) :
  (List.length (callRequests http_Get IP_String c call) <= 1)%nat
  /\ (callRequests http_Get IP_String c call = [] ->
      exists err,
        callSummary http_Get IP_String c call = Returns (true, Some err)).
Proof.
  split.
  - destruct (callRequests_shape http_Get IP_String c call) as [E|[e E]];
      rewrite E; cbn; lia.
  - intros Hreq.
    destruct call; cbn [callRequests callSummary] in *; split_call;
      first [ eexists; reflexivity
            | rewrite requests_bind_doGet in Hreq by quiet_continuation;
              discriminate Hreq ].
Qed.

End Family.

(** ** Particular operations *)

(** Rewrites the endpoint under [requestURL] into closed form [e]. *)
Ltac endpoint_is e :=
  match goal with
  | |- context [requestURL ?c ?s] =>
      replace s with e by (normalize_strings; reflexivity)
  end.

(** Settles the separator [doGet] chooses for an endpoint made of
    literal text, numerals and one question mark at most. *)
Ltac settle_separator :=
  unfold requestURL;
  rewrite ?Contains_char_app, ?itoa_no_char by reflexivity;
  cbn [orb strings.Contains prefix ascii_dec];
  rewrite ?orb_true_r; cbv iota;
  rewrite ?append_assoc; cbn [append]; reflexivity.

Section Particular.

Variable http_Get : string -> http.GetResult.
Variable IP_String : net.IP -> string.
Context {json_event : json.Unmarshaler (DOResp.t Event.t)}
        {json_regions : json.Unmarshaler (DOResp.t (list Region.t))}
        {json_sizes : json.Unmarshaler (DOResp.t (list Size.t))}
        {json_partial_droplet : json.Unmarshaler (DOResp.t PartialDroplet.t)}
        {json_event_id : json.Unmarshaler (DOResp.t Z)}
        {json_droplets : json.Unmarshaler (DOResp.t (list Droplet.t))}
        {json_droplet : json.Unmarshaler (DOResp.t Droplet.t)}
        {json_partial_domain : json.Unmarshaler (DOResp.t PartialDomain.t)}
        {json_status : json.Unmarshaler (DOResp.t unit)}
        {json_domains : json.Unmarshaler (DOResp.t (list Domain.t))}
        {json_domain : json.Unmarshaler (DOResp.t Domain.t)}
        {json_record : json.Unmarshaler (DOResp.t DomainRecord.t)}
        {json_records : json.Unmarshaler (DOResp.t (list DomainRecord.t))}
        {json_images : json.Unmarshaler (DOResp.t (list Image.t))}
        {json_image : json.Unmarshaler (DOResp.t Image.t)}.

(** X4.  [doGet] joins the credentials with an ampersand when the
    endpoint already has a question mark somewhere, and with a question
    mark when it has none. *)
Theorem doGet_chooses_separator {T : Type} {json_T : json.Unmarshaler T}
    (c : Client) (endpoint : string) (i : T) :
  (contains endpoint "?" ->
   requests (doGet http_Get c endpoint i)
   = [APIURL ++ endpoint ++ "&" ++ credentials c])
  /\ (~ contains endpoint "?" ->
      requests (doGet http_Get c endpoint i)
      = [APIURL ++ endpoint ++ "?" ++ credentials c]).
Proof.
  assert (E : requests (doGet http_Get c endpoint i)
              = [requestURL c endpoint])
    by (unfold requests, run; now rewrite doGet_run).
  rewrite E. unfold requestURL. split; intros H.
  - now rewrite (contains_Contains _ _ H).
  - destruct (strings.Contains endpoint "?") eqn:Ec; [|reflexivity].
    elim H. now apply Contains_contains.
Qed.

(** X5.  [CreateDomain] refuses an empty name, then an empty IP, each
    with its own error and without a request; any other name and IP are
    sent as they are, the IP through [IP.String]. *)
Theorem CreateDomain_checks_name_then_address
    (c : Client) (name : string) (IP : net.IP) :
  (name = "" ->
   run (CreateDomain http_Get IP_String c name IP)
   = (Returns (None, Some (errorString "name must be set")), []))
  /\ (name <> "" -> IP = [] ->
      run (CreateDomain http_Get IP_String c name IP)
      = (Returns (None,
                  Some (errorString "IP address must be set and valid")),
         []))
  /\ (name <> "" -> IP <> [] ->
      requests (CreateDomain http_Get IP_String c name IP)
      = [APIURL ++ "/domains/new?name=" ++ name ++ "&ip_address="
           ++ IP_String IP ++ "&" ++ credentials c]).
Proof.
  unfold CreateDomain. split; [|split].
  - intros ->. reflexivity.
  - intros Hname ->. apply String.eqb_neq in Hname. now rewrite Hname.
  - intros Hname HIP. apply String.eqb_neq in Hname. rewrite Hname.
    destruct IP as [|b IP']; [contradiction|].
    cbn [List.length Z.of_nat Z.eqb]. cbv zeta.
    rewrite requests_bind_doGet by quiet_continuation.
    endpoint_is ("/domains/new?name=" ++ name ++ "&ip_address="
                   ++ IP_String (b :: IP')).
    do 2 f_equal. unfold requestURL.
    rewrite Contains_char_app.
    replace (strings.Contains "/domains/new?name=" "?") with true
      by reflexivity.
    cbn [orb]. now rewrite !append_assoc.
Qed.

(** X6.  [CreateDomainRecord] refuses an empty record type, then an
    empty data value, each with its own error and without a request,
    whatever the domain and the other fields are. *)
Theorem CreateDomainRecord_checks_type_then_data
    (c : Client) (ID : GoValue) (r : DomainRecord.t) :
  (DomainRecord.RecordType r = "" ->
   run (CreateDomainRecord http_Get c ID r)
   = (Returns (None, Some (errorString "record type must be set")), []))
  /\ (DomainRecord.RecordType r <> "" -> DomainRecord.Data r = "" ->
      run (CreateDomainRecord http_Get c ID r)
      = (Returns (None, Some (errorString "data value must be set")), [])).
Proof.
  unfold CreateDomainRecord. split.
  - intros ->. reflexivity.
  - intros Htype ->. apply String.eqb_neq in Htype. now rewrite Htype.
Qed.

(** X7.  [UpdateRecordByDomain] refuses a zero record ID, then an empty
    record type, then an empty data value, each with its own error and
    without a request. *)
Theorem UpdateRecordByDomain_checks_id_type_data
    (c : Client) (domainID : GoValue) (r : DomainRecord.t) :
  (DomainRecord.ID r = 0 ->
   run (UpdateRecordByDomain http_Get c domainID r)
   = (Returns (None, Some (errorString "record ID must be set")), []))
  /\ (DomainRecord.ID r <> 0 -> DomainRecord.RecordType r = "" ->
      run (UpdateRecordByDomain http_Get c domainID r)
      = (Returns (None, Some (errorString "record type must be set")), []))
  /\ (DomainRecord.ID r <> 0 -> DomainRecord.RecordType r <> "" ->
      DomainRecord.Data r = "" ->
      run (UpdateRecordByDomain http_Get c domainID r)
      = (Returns (None, Some (errorString "data value must be set")), [])).
Proof.
  unfold UpdateRecordByDomain. split; [|split].
  - intros ->. reflexivity.
  - intros Hid ->. apply Z.eqb_neq in Hid. now rewrite Hid.
  - intros Hid Htype ->. apply Z.eqb_neq in Hid.
    apply String.eqb_neq in Htype. now rewrite Hid, Htype.
Qed.

(** X8.  The three image operations refuse an ID whose dynamic type is
    neither int nor string: each returns the type error with the zero
    value of its payload and makes no request. *)
Theorem image_operations_refuse_other_types
    (c : Client) (ID : GoValue) (regionID : Z) :
  isIntOrString ID = false ->
  run (DeleteImage http_Get c ID)
  = (Returns (Some (errorString "ID must be either a string or integer")),
     [])
  /\ run (GetImageByID http_Get c ID)
     = (Returns (None,
                 Some (errorString "ID must be either a string or integer")),
        [])
  /\ run (TransferImage http_Get c ID regionID)
     = (Returns (0,
                 Some (errorString "ID must be either a string or integer")),
        []).
Proof.
  intros H. destruct ID; try discriminate H. repeat split.
Qed.

(** X9.  For an ID of dynamic type int or string the three image
    operations make one request, with the ID written as [%v] prints it;
    the region of a transfer follows a question mark. *)
Theorem image_operations_request
    (c : Client) (ID : GoValue) (regionID : Z) :
  isIntOrString ID = true ->
  requests (DeleteImage http_Get c ID)
  = [requestURL c ("/images/" ++ fmt.printValue ID ++ "/destroy")]
  /\ requests (GetImageByID http_Get c ID)
     = [requestURL c ("/images/" ++ fmt.printValue ID)]
  /\ requests (TransferImage http_Get c ID regionID)
     = [APIURL ++ "/images/" ++ fmt.printValue ID ++ "/transfer?region_id="
          ++ fmt.itoa regionID ++ "&" ++ credentials c].
Proof.
  intros H.
  destruct ID as [n|s|ty render]; try discriminate H;
    unfold DeleteImage, GetImageByID, TransferImage; cbv zeta;
    rewrite !requests_bind_doGet by quiet_continuation;
    (split; [|split]); do 2 f_equal;
    try (normalize_strings; reflexivity).
  - endpoint_is ("/images/" ++ fmt.printValue (VInt n)
                   ++ "/transfer?region_id=" ++ fmt.itoa regionID).
    unfold requestURL. rewrite !Contains_char_app.
    replace (strings.Contains "/transfer?region_id=" "?") with true
      by reflexivity.
    rewrite orb_true_l, !orb_true_r. now rewrite !append_assoc.
  - endpoint_is ("/images/" ++ fmt.printValue (VString s)
                   ++ "/transfer?region_id=" ++ fmt.itoa regionID).
    unfold requestURL. rewrite !Contains_char_app.
    replace (strings.Contains "/transfer?region_id=" "?") with true
      by reflexivity.
    rewrite orb_true_l, !orb_true_r. now rewrite !append_assoc.
Qed.

(** X10.  The domain operations that take the domain as an [interface{}]
    make no check of its dynamic type: for every value they make one
    request, with the domain written as [%v] prints it. *)
Theorem domain_operations_take_any_type
    (c : Client) (domainID : GoValue) (ID : Z) :
  requests (DeleteDomainByID http_Get c domainID)
  = [requestURL c ("/domains/" ++ fmt.printValue domainID ++ "/destroy")]
  /\ requests (GetAllRecordsByDomain http_Get c domainID)
     = [requestURL c ("/domains/" ++ fmt.printValue domainID ++ "/records")]
  /\ requests (GetRecordByDomain http_Get c domainID ID)
     = [requestURL c ("/domains/" ++ fmt.printValue domainID ++ "/records/"
                        ++ fmt.itoa ID)]
  /\ requests (DeleteRecordByDomain http_Get c domainID ID)
     = [requestURL c ("/domains/" ++ fmt.printValue domainID ++ "/records/"
                        ++ fmt.itoa ID ++ "/destroy")].
Proof.
  assert (Ev : fmt.printArg "v" domainID = fmt.printValue domainID)
    by (destruct domainID; reflexivity).
  unfold DeleteDomainByID, GetAllRecordsByDomain, GetRecordByDomain,
    DeleteRecordByDomain.
  rewrite !requests_bind_doGet by quiet_continuation.
  repeat apply conj; do 2 f_equal;
    cbn [fmt.Sprintf Ascii.eqb Bool.eqb]; cbv iota; rewrite Ev;
    generalize (fmt.printValue domainID); intros;
    normalize_strings; reflexivity.
Qed.

(** X11.  The droplet actions that take only the droplet ID each
    request the droplet's path followed by the name of the action, a
    question mark and the credentials. *)
Theorem droplet_actions_request (c : Client) (ID : Z) :
  requests (DeleteDropletByID http_Get c ID)
  = [APIURL ++ "/droplets/" ++ fmt.itoa ID ++ "/destroy?" ++ credentials c]
  /\ requests (RebootDroplet http_Get c ID)
     = [APIURL ++ "/droplets/" ++ fmt.itoa ID ++ "/reboot?" ++ credentials c]
  /\ requests (PowerCycleDroplet http_Get c ID)
     = [APIURL ++ "/droplets/" ++ fmt.itoa ID ++ "/power_cycle?"
          ++ credentials c]
  /\ requests (ShutDownDroplet http_Get c ID)
     = [APIURL ++ "/droplets/" ++ fmt.itoa ID ++ "/shutdown?"
          ++ credentials c]
  /\ requests (PowerOffDroplet http_Get c ID)
     = [APIURL ++ "/droplets/" ++ fmt.itoa ID ++ "/power_off?"
          ++ credentials c]
  /\ requests (PowerOnDroplet http_Get c ID)
     = [APIURL ++ "/droplets/" ++ fmt.itoa ID ++ "/power_on?"
          ++ credentials c]
  /\ requests (ResetRootPassDroplet http_Get c ID)
     = [APIURL ++ "/droplets/" ++ fmt.itoa ID ++ "/password_reset?"
          ++ credentials c].
Proof.
  unfold DeleteDropletByID, RebootDroplet, PowerCycleDroplet,
    ShutDownDroplet, PowerOffDroplet, PowerOnDroplet, ResetRootPassDroplet.
  rewrite !requests_bind_doGet by quiet_continuation.
  repeat apply conj; do 2 f_equal.
  - endpoint_is ("/droplets/" ++ fmt.itoa ID ++ "/destroy").
    settle_separator.
  - endpoint_is ("/droplets/" ++ fmt.itoa ID ++ "/reboot").
    settle_separator.
  - endpoint_is ("/droplets/" ++ fmt.itoa ID ++ "/power_cycle").
    settle_separator.
  - endpoint_is ("/droplets/" ++ fmt.itoa ID ++ "/shutdown").
    settle_separator.
  - endpoint_is ("/droplets/" ++ fmt.itoa ID ++ "/power_off").
    settle_separator.
  - endpoint_is ("/droplets/" ++ fmt.itoa ID ++ "/power_on").
    settle_separator.
  - endpoint_is ("/droplets/" ++ fmt.itoa ID ++ "/password_reset").
    settle_separator.
Qed.

(** X12.  [RestoreDroplet], [RebuildDroplet] and [RenameDroplet] write
    their parameter after a question mark and the credentials after an
    ampersand; the new name of a droplet is written as it is given. *)
Theorem droplet_parameters_follow_question_mark
    (c : Client) (ID imageID : Z) (name : string) :
  requests (RestoreDroplet http_Get c ID imageID)
  = [APIURL ++ "/droplets/" ++ fmt.itoa ID ++ "/restore?image_id="
       ++ fmt.itoa imageID ++ "&" ++ credentials c]
  /\ requests (RebuildDroplet http_Get c ID imageID)
     = [APIURL ++ "/droplets/" ++ fmt.itoa ID ++ "/rebuild?image_id="
          ++ fmt.itoa imageID ++ "&" ++ credentials c]
  /\ requests (RenameDroplet http_Get c ID name)
     = [APIURL ++ "/droplets/" ++ fmt.itoa ID ++ "/rename?name=" ++ name
          ++ "&" ++ credentials c].
Proof.
  unfold RestoreDroplet, RebuildDroplet, RenameDroplet.
  rewrite !requests_bind_doGet by quiet_continuation.
  repeat apply conj; do 2 f_equal.
  - endpoint_is ("/droplets/" ++ fmt.itoa ID ++ "/restore?image_id="
                   ++ fmt.itoa imageID).
    settle_separator.
  - endpoint_is ("/droplets/" ++ fmt.itoa ID ++ "/rebuild?image_id="
                   ++ fmt.itoa imageID).
    settle_separator.
  - endpoint_is ("/droplets/" ++ fmt.itoa ID ++ "/rename?name=" ++ name).
    unfold requestURL. rewrite !Contains_char_app.
    replace (strings.Contains "/rename?name=" "?") with true by reflexivity.
    rewrite orb_true_l, !orb_true_r. now rewrite !append_assoc.
Qed.

(** X13.  With an empty name [TakeSnapshotOnDroplet] sends no name
    parameter at all: it requests the snapshot path, a question mark and
    the credentials. *)
Theorem TakeSnapshotOnDroplet_without_name (c : Client) (ID : Z) :
  requests (TakeSnapshotOnDroplet http_Get c ID "")
  = [APIURL ++ "/droplets/" ++ fmt.itoa ID ++ "/snapshot?" ++ credentials c].
Proof.
  unfold TakeSnapshotOnDroplet. cbn [String.eqb negb]. cbv zeta.
  rewrite requests_bind_doGet by quiet_continuation.
  do 2 f_equal.
  endpoint_is ("/droplets/" ++ fmt.itoa ID ++ "/snapshot").
  settle_separator.
Qed.

(** X14.  [GetDropletByID] takes every status other than ERROR for
    success, the empty status of an envelope without one included: it
    returns the decoded droplet and a nil error. *)
Theorem GetDropletByID_succeeds_unless_error
    (c : Client) (ID : Z) (url : string) (resp : http.Response)
    (env : DOResp.t Droplet.t) :
  requests (GetDropletByID http_Get c ID) = [url] ->
  http_Get url = http.Got resp ->
  ioutil.failure (http.Body resp) = None ->
  json.Unmarshal (ioutil.data (http.Body resp)) (zero : DOResp.t Droplet.t)
  = (env, None) ->
  DOResp.Status env <> StatusError ->
  outcome (GetDropletByID http_Get c ID)
  = Returns (Some (DOResp.Payload env), None).
Proof.
  intros Hreq Hget Hread Hdecode Hstatus.
  unfold GetDropletByID in *. requested_url Hreq.
  unfold outcome. rewrite (bind_doGet_decoded _ _ _ _ _ _ _ Hget Hread Hdecode).
  apply String.eqb_neq in Hstatus. now rewrite Hstatus.
Qed.

(** X15.  [RebootDroplet] and [PowerCycleDroplet] return the decoded
    event ID and a nil error unless the status is ERROR; on ERROR both
    return event ID 0 and an error with one and the same text, which
    speaks of a reboot and gives the droplet ID and the server's
    message. *)
Theorem reboot_and_power_cycle_follow_envelope
    (c : Client) (ID : Z) (resp : http.Response) (env : DOResp.t Z) :
  http_Get (APIURL ++ "/droplets/" ++ fmt.itoa ID ++ "/reboot?"
              ++ credentials c) = http.Got resp ->
  http_Get (APIURL ++ "/droplets/" ++ fmt.itoa ID ++ "/power_cycle?"
              ++ credentials c) = http.Got resp ->
  ioutil.failure (http.Body resp) = None ->
  json.Unmarshal (ioutil.data (http.Body resp)) (zero : DOResp.t Z)
  = (env, None) ->
  (DOResp.Status env <> StatusError ->
   outcome (RebootDroplet http_Get c ID)
   = Returns (DOResp.Payload env, None)
   /\ outcome (PowerCycleDroplet http_Get c ID)
      = Returns (DOResp.Payload env, None))
  /\ (DOResp.Status env = StatusError ->
      outcome (RebootDroplet http_Get c ID)
      = Returns (0, Some (errorString
                            ("could not reboot droplet with ID "
                               ++ fmt.itoa ID ++ ": "
                               ++ DOResp.Message env)))
      /\ outcome (PowerCycleDroplet http_Get c ID)
         = Returns (0, Some (errorString
                               ("could not reboot droplet with ID "
                                  ++ fmt.itoa ID ++ ": "
                                  ++ DOResp.Message env)))).
Proof.
  intros Hreboot Hcycle Hread Hdecode.
  assert (Er : requestURL c ("/droplets/" ++ fmt.itoa ID ++ "/reboot")
               = APIURL ++ "/droplets/" ++ fmt.itoa ID ++ "/reboot?"
                   ++ credentials c)
    by (rewrite requestURL_numeral_path by reflexivity; reflexivity).
  assert (Ec : requestURL c ("/droplets/" ++ fmt.itoa ID ++ "/power_cycle")
               = APIURL ++ "/droplets/" ++ fmt.itoa ID ++ "/power_cycle?"
                   ++ credentials c)
    by (rewrite requestURL_numeral_path by reflexivity; reflexivity).
  rewrite <- Er in Hreboot. rewrite <- Ec in Hcycle.
  unfold RebootDroplet, PowerCycleDroplet, outcome.
  replace (fmt.Sprintf "/droplets/%d/reboot" [VInt ID])
    with ("/droplets/" ++ fmt.itoa ID ++ "/reboot")
    by (normalize_strings; reflexivity).
  replace (fmt.Sprintf "/droplets/%d/power_cycle" [VInt ID])
    with ("/droplets/" ++ fmt.itoa ID ++ "/power_cycle")
    by (normalize_strings; reflexivity).
  rewrite (bind_doGet_decoded _ _ _ _ _ _ _ Hreboot Hread Hdecode).
  rewrite (bind_doGet_decoded _ _ _ _ _ _ _ Hcycle Hread Hdecode).
  split; intros Hstatus.
  - apply String.eqb_neq in Hstatus. rewrite Hstatus. split; reflexivity.
  - rewrite Hstatus. cbn [String.eqb StatusError Ascii.eqb Bool.eqb].
    cbv iota. cbn [fst ret]. unfold fmt.Errorf.
    split; do 4 f_equal; normalize_strings; reflexivity.
Qed.

(** X16.  On status ERROR the error of [DeleteRecordByDomain] gives its
    two identifiers in exchanged places: for a numeric domain the text
    has the domain where the record is announced and the record ID where
    the domain is, and for a domain name it has a bad-verb report where
    the record is announced. *)
Theorem DeleteRecordByDomain_error_text
    (c : Client) (domainID : GoValue) (ID : Z) (url : string)
    (resp : http.Response) (env : DOResp.t unit) :
  requests (DeleteRecordByDomain http_Get c domainID ID) = [url] ->
  http_Get url = http.Got resp ->
  ioutil.failure (http.Body resp) = None ->
  json.Unmarshal (ioutil.data (http.Body resp)) (zero : DOResp.t unit)
  = (env, None) ->
  DOResp.Status env = StatusError ->
  (forall d, domainID = VInt d ->
     outcome (DeleteRecordByDomain http_Get c domainID ID)
     = Returns (Some (errorString
                        ("could not delete record " ++ fmt.itoa d
                           ++ " for domain with ID " ++ fmt.itoa ID
                           ++ ": " ++ DOResp.Message env))))
  /\ (forall name, domainID = VString name ->
        outcome (DeleteRecordByDomain http_Get c domainID ID)
        = Returns (Some (errorString
                           ("could not delete record %!d(string=" ++ name
                              ++ ") for domain with ID " ++ fmt.itoa ID
                              ++ ": " ++ DOResp.Message env)))).
Proof.
  intros Hreq Hget Hread Hdecode Hstatus.
  unfold DeleteRecordByDomain in *. requested_url Hreq.
  unfold outcome.
  rewrite (bind_doGet_decoded _ _ _ _ _ _ _ Hget Hread Hdecode).
  rewrite Hstatus. cbn [String.eqb StatusError Ascii.eqb Bool.eqb].
  cbv iota. cbn [fst ret]. unfold fmt.Errorf.
  split; intros x ->; do 3 f_equal; normalize_strings; reflexivity.
Qed.

(** X17.  The three lookups by numeric ID request the collection's path,
    the decimal ID, a question mark and the credentials; the five
    operations that list a whole collection request its fixed path, a
    question mark and the credentials. *)
Theorem lookups_and_listings_request (c : Client) (ID : Z) :
  requests (GetEventByID http_Get c ID)
  = [APIURL ++ "/events/" ++ fmt.itoa ID ++ "?" ++ credentials c]
  /\ requests (GetDropletByID http_Get c ID)
     = [APIURL ++ "/droplets/" ++ fmt.itoa ID ++ "?" ++ credentials c]
  /\ requests (GetDomainByID http_Get c ID)
     = [APIURL ++ "/domains/" ++ fmt.itoa ID ++ "?" ++ credentials c]
  /\ requests (GetAllRegions http_Get c)
     = [APIURL ++ "/regions?" ++ credentials c]
  /\ requests (GetAllSizes http_Get c)
     = [APIURL ++ "/sizes?" ++ credentials c]
  /\ requests (GetAllDroplets http_Get c)
     = [APIURL ++ "/droplets?" ++ credentials c]
  /\ requests (GetAllDomains http_Get c)
     = [APIURL ++ "/domains?" ++ credentials c]
  /\ requests (GetAllImages http_Get c)
     = [APIURL ++ "/images?" ++ credentials c].
Proof.
  unfold GetEventByID, GetDropletByID, GetDomainByID, GetAllRegions,
    GetAllSizes, GetAllDroplets, GetAllDomains, GetAllImages.
  rewrite !requests_bind_doGet by quiet_continuation.
  repeat apply conj; try reflexivity; do 2 f_equal.
  - endpoint_is ("/events/" ++ fmt.itoa ID). settle_separator.
  - endpoint_is ("/droplets/" ++ fmt.itoa ID). settle_separator.
  - endpoint_is ("/domains/" ++ fmt.itoa ID). settle_separator.
Qed.

(** X18.  Unless the status is ERROR, [GetAllDroplets] returns the
    decoded list as it is, in the order and with the length it was
    decoded; on ERROR it returns a nil list and an error that carries
    the server's message. *)
Theorem GetAllDroplets_follows_envelope
    (c : Client) (resp : http.Response) (env : DOResp.t (list Droplet.t)) :
  http_Get (APIURL ++ "/droplets?" ++ credentials c) = http.Got resp ->
  ioutil.failure (http.Body resp) = None ->
  json.Unmarshal (ioutil.data (http.Body resp))
    (zero : DOResp.t (list Droplet.t)) = (env, None) ->
  (DOResp.Status env <> StatusError ->
   outcome (GetAllDroplets http_Get c) = Returns (DOResp.Payload env, None))
  /\ (DOResp.Status env = StatusError ->
      outcome (GetAllDroplets http_Get c)
      = Returns ([], Some (errorString ("could not get droplets: "
                                          ++ DOResp.Message env)))).
Proof.
  intros Hget Hread Hdecode.
  change (APIURL ++ "/droplets?" ++ credentials c)
    with (requestURL c "/droplets") in Hget.
  unfold GetAllDroplets, outcome.
  rewrite (bind_doGet_decoded _ _ _ _ _ _ _ Hget Hread Hdecode).
  split; intros Hstatus.
  - apply String.eqb_neq in Hstatus. now rewrite Hstatus.
  - rewrite Hstatus. cbn [String.eqb StatusError Ascii.eqb Bool.eqb].
    cbv iota. cbn [fst ret]. unfold fmt.Errorf. do 4 f_equal.
    normalize_strings. reflexivity.
Qed.

(** X19.  Once its request is answered and decoded,
    [UpdateRecordByDomain] returns the decoded record and a nil error
    unless the status is ERROR; on ERROR it returns a nil record and an
    error that speaks of creating the record and gives the record ID,
    the domain and the server's message. *)
Theorem UpdateRecordByDomain_follows_envelope
    (c : Client) (domainID : GoValue) (r : DomainRecord.t) (url : string)
    (resp : http.Response) (env : DOResp.t DomainRecord.t) :
  requests (UpdateRecordByDomain http_Get c domainID r) = [url] ->
  http_Get url = http.Got resp ->
  ioutil.failure (http.Body resp) = None ->
  json.Unmarshal (ioutil.data (http.Body resp))
    (zero : DOResp.t DomainRecord.t) = (env, None) ->
  (DOResp.Status env <> StatusError ->
   outcome (UpdateRecordByDomain http_Get c domainID r)
   = Returns (Some (DOResp.Payload env), None))
  /\ (DOResp.Status env = StatusError ->
      outcome (UpdateRecordByDomain http_Get c domainID r)
      = Returns (None,
                 Some (errorString
                         ("could not create record "
                            ++ fmt.itoa (DomainRecord.ID r)
                            ++ " for domain " ++ fmt.printValue domainID
                            ++ ": " ++ DOResp.Message env)))).
Proof.
  intros Hreq Hget Hread Hdecode.
  assert (Ev : fmt.printArg "v" domainID = fmt.printValue domainID)
    by (destruct domainID; reflexivity).
  unfold UpdateRecordByDomain in *. cbv zeta in *.
  repeat match goal with
         | |- context [if ?b then ret _ else _] => destruct b
         end; try discriminate Hreq.
  requested_url Hreq. unfold outcome.
  rewrite (bind_doGet_decoded _ _ _ _ _ _ _ Hget Hread Hdecode).
  split; intros Hstatus.
  - apply String.eqb_neq in Hstatus. now rewrite Hstatus.
  - rewrite Hstatus. cbn [String.eqb StatusError Ascii.eqb Bool.eqb].
    cbv iota. cbn [fst ret]. unfold fmt.Errorf. do 4 f_equal.
    cbn [fmt.Sprintf fmt.printArg Ascii.eqb Bool.eqb orb]; cbv iota.
    rewrite Ev. generalize (fmt.printValue domainID); intros.
    normalize_strings. reflexivity.
Qed.

(** X20.  Once its request is answered and decoded, [CreateDroplet]
    returns the decoded partial droplet, event ID included, and a nil
    error unless the status is ERROR; on ERROR it returns a nil droplet
    and an error that carries the server's message. *)
Theorem CreateDroplet_follows_envelope
    (c : Client) (n : NewDroplet.t) (url : string) (resp : http.Response)
    (env : DOResp.t PartialDroplet.t) :
  requests (CreateDroplet http_Get c n) = [url] ->
  http_Get url = http.Got resp ->
  ioutil.failure (http.Body resp) = None ->
  json.Unmarshal (ioutil.data (http.Body resp))
    (zero : DOResp.t PartialDroplet.t) = (env, None) ->
  (DOResp.Status env <> StatusError ->
   outcome (CreateDroplet http_Get c n)
   = Returns (Some (DOResp.Payload env), None))
  /\ (DOResp.Status env = StatusError ->
      outcome (CreateDroplet http_Get c n)
      = Returns (None,
                 Some (errorString ("could not create droplet: "
                                      ++ DOResp.Message env)))).
Proof.
  intros Hreq Hget Hread Hdecode.
  unfold CreateDroplet in *. cbv zeta in *.
  repeat match goal with
         | |- context [if ?b then ret _ else _] => destruct b
         end; try discriminate Hreq.
  requested_url Hreq. unfold outcome.
  rewrite (bind_doGet_decoded _ _ _ _ _ _ _ Hget Hread Hdecode).
  split; intros Hstatus.
  - apply String.eqb_neq in Hstatus. now rewrite Hstatus.
  - rewrite Hstatus. cbn [String.eqb StatusError Ascii.eqb Bool.eqb].
    cbv iota. cbn [fst ret]. unfold fmt.Errorf. do 4 f_equal.
    normalize_strings. reflexivity.
Qed.

End Particular.

(** ** The further properties at concrete inputs *)

#[local] Existing Instance Canned.blank.

(** X1 at a reboot of droplet 5 over a transport that refuses every
    connection. *)
Lemma transport_error_is_returned_unchanged_witness :
  callRequests (Canned.refuse (errorString "connection refused"))
    Canned.dotted Canned.client (CallRebootDroplet 5)
  = ["https://api.digitalocean.com/v1/droplets/5/reboot?client_id=id&api_key=key"]
  /\ callSummary (Canned.refuse (errorString "connection refused"))
       Canned.dotted Canned.client (CallRebootDroplet 5)
     = Returns (true, Some (errorString "connection refused")).
Proof.
  split; [reflexivity|].
  apply (transport_error_is_returned_unchanged
           (Canned.refuse (errorString "connection refused"))
           Canned.dotted Canned.client (CallRebootDroplet 5)
           "https://api.digitalocean.com/v1/droplets/5/reboot?client_id=id&api_key=key"
           (errorString "connection refused")); reflexivity.
Defined.

(** X2 at a listing of the images over a transport whose bodies break
    off. *)
Lemma unreadable_body_panics_every_call_witness :
  callSummary (Canned.breakOff (errorString "unexpected EOF"))
    Canned.dotted Canned.client CallGetAllImages
  = Panics (errorString "unexpected EOF").
Proof.
  apply (unreadable_body_panics_every_call
           (Canned.breakOff (errorString "unexpected EOF"))
           Canned.dotted Canned.client CallGetAllImages
           "https://api.digitalocean.com/v1/images?client_id=id&api_key=key"
           (http.mkResponse
              (ioutil.mkReader "" (Some (errorString "unexpected EOF"))))
           (errorString "unexpected EOF")); reflexivity.
Defined.

(** X3 at the creation of a domain without a name. *)
Lemma at_most_one_request_and_none_means_error_witness :
  callRequests (Canned.respond "") Canned.dotted Canned.client
    (CallCreateDomain "" []) = []
  /\ exists err,
       callSummary (Canned.respond "") Canned.dotted Canned.client
         (CallCreateDomain "" [])
       = Returns (true, Some err).
Proof.
  split; [reflexivity|].
  apply (proj2 (at_most_one_request_and_none_means_error
                  (Canned.respond "") Canned.dotted Canned.client
                  (CallCreateDomain "" []))).
  reflexivity.
Defined.

(** X4 at an endpoint with a question mark and at one without. *)
Lemma doGet_chooses_separator_witness :
  requests (doGet (Canned.respond "") (json_T := Canned.always 0)
              Canned.client "/droplets/5/restore?image_id=7" 0)
  = ["https://api.digitalocean.com/v1/droplets/5/restore?image_id=7&client_id=id&api_key=key"]
  /\ requests (doGet (Canned.respond "") (json_T := Canned.always 0)
                 Canned.client "/droplets" 0)
     = ["https://api.digitalocean.com/v1/droplets?client_id=id&api_key=key"].
Proof.
  split.
  - apply (proj1 (doGet_chooses_separator (Canned.respond "")
                    (json_T := Canned.always 0)
                    Canned.client "/droplets/5/restore?image_id=7" 0)).
    exists "/droplets/5/restore", "image_id=7". reflexivity.
  - apply (proj2 (doGet_chooses_separator (Canned.respond "")
                    (json_T := Canned.always 0)
                    Canned.client "/droplets" 0)).
    intros H. apply contains_Contains in H. discriminate H.
Defined.

(** X5 at a missing name, a missing address, and a name with an
    address. *)
Lemma CreateDomain_checks_name_then_address_witness :
  run (CreateDomain (Canned.respond "") Canned.dotted Canned.client
         "" Canned.address)
  = (Returns (None, Some (errorString "name must be set")), [])
  /\ run (CreateDomain (Canned.respond "") Canned.dotted Canned.client
            "example.com" [])
     = (Returns (None,
                 Some (errorString "IP address must be set and valid")),
        [])
  /\ requests (CreateDomain (Canned.respond "") Canned.dotted Canned.client
                 "example.com" Canned.address)
     = ["https://api.digitalocean.com/v1/domains/new?name=example.com&ip_address=192.0.2.1&client_id=id&api_key=key"].
Proof.
  split; [|split].
  - apply (proj1 (CreateDomain_checks_name_then_address
                    (Canned.respond "") Canned.dotted Canned.client
                    "" Canned.address)).
    reflexivity.
  - apply (proj1 (proj2 (CreateDomain_checks_name_then_address
                           (Canned.respond "") Canned.dotted Canned.client
                           "example.com" []))).
    + discriminate.
    + reflexivity.
  - apply (proj2 (proj2 (CreateDomain_checks_name_then_address
                           (Canned.respond "") Canned.dotted Canned.client
                           "example.com" Canned.address))).
    + discriminate.
    + discriminate.
Defined.

(** X6 at a record without a type and at one without data. *)
Lemma CreateDomainRecord_checks_type_then_data_witness :
  run (CreateDomainRecord (Canned.respond "") Canned.client
         (VString "example.com")
         (DomainRecord.mk 0 0 "" "www" "1.2.3.4" 0 0 0))
  = (Returns (None, Some (errorString "record type must be set")), [])
  /\ run (CreateDomainRecord (Canned.respond "") Canned.client
            (VString "example.com")
            (DomainRecord.mk 0 0 "A" "www" "" 0 0 0))
     = (Returns (None, Some (errorString "data value must be set")), []).
Proof.
  split.
  - apply (proj1 (CreateDomainRecord_checks_type_then_data
                    (Canned.respond "") Canned.client
                    (VString "example.com")
                    (DomainRecord.mk 0 0 "" "www" "1.2.3.4" 0 0 0))).
    reflexivity.
  - apply (proj2 (CreateDomainRecord_checks_type_then_data
                    (Canned.respond "") Canned.client
                    (VString "example.com")
                    (DomainRecord.mk 0 0 "A" "www" "" 0 0 0))).
    + discriminate.
    + reflexivity.
Defined.

(** X7 at a record without an ID, one without a type and one without
    data. *)
Lemma UpdateRecordByDomain_checks_id_type_data_witness :
  run (UpdateRecordByDomain (Canned.respond "") Canned.client (VInt 1)
         (DomainRecord.mk 0 0 "" "" "" 0 0 0))
  = (Returns (None, Some (errorString "record ID must be set")), [])
  /\ run (UpdateRecordByDomain (Canned.respond "") Canned.client (VInt 1)
            (DomainRecord.mk 5 0 "" "" "" 0 0 0))
     = (Returns (None, Some (errorString "record type must be set")), [])
  /\ run (UpdateRecordByDomain (Canned.respond "") Canned.client (VInt 1)
            (DomainRecord.mk 5 0 "A" "" "" 0 0 0))
     = (Returns (None, Some (errorString "data value must be set")), []).
Proof.
  split; [|split].
  - apply (proj1 (UpdateRecordByDomain_checks_id_type_data
                    (Canned.respond "") Canned.client (VInt 1)
                    (DomainRecord.mk 0 0 "" "" "" 0 0 0))).
    reflexivity.
  - apply (proj1 (proj2 (UpdateRecordByDomain_checks_id_type_data
                           (Canned.respond "") Canned.client (VInt 1)
                           (DomainRecord.mk 5 0 "" "" "" 0 0 0)))).
    + discriminate.
    + reflexivity.
  - apply (proj2 (proj2 (UpdateRecordByDomain_checks_id_type_data
                           (Canned.respond "") Canned.client (VInt 1)
                           (DomainRecord.mk 5 0 "A" "" "" 0 0 0)))).
    + discriminate.
    + discriminate.
    + reflexivity.
Defined.

(** X8 at an image ID of dynamic type float64. *)
Lemma image_operations_refuse_other_types_witness :
  run (DeleteImage (Canned.respond "") Canned.client Canned.fraction)
  = (Returns (Some (errorString "ID must be either a string or integer")),
     [])
  /\ run (GetImageByID (Canned.respond "") Canned.client Canned.fraction)
     = (Returns (None,
                 Some (errorString "ID must be either a string or integer")),
        [])
  /\ run (TransferImage (Canned.respond "") Canned.client Canned.fraction 3)
     = (Returns (0,
                 Some (errorString "ID must be either a string or integer")),
        []).
Proof.
  apply (image_operations_refuse_other_types (Canned.respond "")
           Canned.client Canned.fraction 3).
  reflexivity.
Defined.

(** X9 at an image slug. *)
Lemma image_operations_request_witness :
  requests (DeleteImage (Canned.respond "") Canned.client (VString "ubuntu"))
  = ["https://api.digitalocean.com/v1/images/ubuntu/destroy?client_id=id&api_key=key"]
  /\ requests (GetImageByID (Canned.respond "") Canned.client
                 (VString "ubuntu"))
     = ["https://api.digitalocean.com/v1/images/ubuntu?client_id=id&api_key=key"]
  /\ requests (TransferImage (Canned.respond "") Canned.client
                 (VString "ubuntu") 3)
     = ["https://api.digitalocean.com/v1/images/ubuntu/transfer?region_id=3&client_id=id&api_key=key"].
Proof.
  apply (image_operations_request (Canned.respond "") Canned.client
           (VString "ubuntu") 3).
  reflexivity.
Defined.

(** X14 at an envelope without a status: the empty object decodes into
    the zero envelope, and the zero droplet comes back with a nil
    error. *)
Lemma GetDropletByID_succeeds_unless_error_witness :
  outcome (GetDropletByID (Canned.respond "{}")
             (json_droplet := Canned.decodeAs "{}" zero) Canned.client 5)
  = Returns (Some zero, None).
Proof.
  refine (GetDropletByID_succeeds_unless_error (Canned.respond "{}")
            (json_droplet := Canned.decodeAs "{}" zero) Canned.client 5
            "https://api.digitalocean.com/v1/droplets/5?client_id=id&api_key=key"
            (http.mkResponse (ioutil.mkReader "{}" None))
            zero eq_refl eq_refl eq_refl eq_refl _).
  discriminate.
Defined.

(** X15 at an ERROR envelope for droplet 5. *)
Lemma reboot_and_power_cycle_follow_envelope_witness :
  outcome (RebootDroplet (Canned.respond Canned.errorBody)
             (json_event_id := Canned.always (DOResp.mk "ERROR" 0 "busy"))
             Canned.client 5)
  = Returns (0, Some (errorString "could not reboot droplet with ID 5: busy"))
  /\ outcome (PowerCycleDroplet (Canned.respond Canned.errorBody)
                (json_event_id := Canned.always (DOResp.mk "ERROR" 0 "busy"))
                Canned.client 5)
     = Returns (0,
                Some (errorString "could not reboot droplet with ID 5: busy")).
Proof.
  apply (proj2 (reboot_and_power_cycle_follow_envelope
                  (Canned.respond Canned.errorBody)
                  (json_event_id :=
                     Canned.always (DOResp.mk "ERROR" 0 "busy"))
                  Canned.client 5
                  (http.mkResponse (ioutil.mkReader Canned.errorBody None))
                  (DOResp.mk "ERROR" 0 "busy")
                  eq_refl eq_refl eq_refl eq_refl)).
  reflexivity.
Defined.

(** X16 at record 7 of domain 3 and of the domain example.com. *)
Lemma DeleteRecordByDomain_error_text_witness :
  outcome (DeleteRecordByDomain (Canned.respond Canned.errorBody)
             (json_status := Canned.always (DOResp.mk "ERROR" tt "gone"))
             Canned.client (VInt 3) 7)
  = Returns (Some (errorString
                     "could not delete record 3 for domain with ID 7: gone"))
  /\ outcome (DeleteRecordByDomain (Canned.respond Canned.errorBody)
                (json_status := Canned.always (DOResp.mk "ERROR" tt "gone"))
                Canned.client (VString "example.com") 7)
     = Returns (Some (errorString
                        "could not delete record %!d(string=example.com) for domain with ID 7: gone")).
Proof.
  split.
  - apply (proj1 (DeleteRecordByDomain_error_text
                    (Canned.respond Canned.errorBody)
                    (json_status :=
                       Canned.always (DOResp.mk "ERROR" tt "gone"))
                    Canned.client (VInt 3) 7
                    "https://api.digitalocean.com/v1/domains/3/records/7/destroy?client_id=id&api_key=key"
                    (http.mkResponse (ioutil.mkReader Canned.errorBody None))
                    (DOResp.mk "ERROR" tt "gone")
                    eq_refl eq_refl eq_refl eq_refl eq_refl) 3 eq_refl).
  - apply (proj2 (DeleteRecordByDomain_error_text
                    (Canned.respond Canned.errorBody)
                    (json_status :=
                       Canned.always (DOResp.mk "ERROR" tt "gone"))
                    Canned.client (VString "example.com") 7
                    "https://api.digitalocean.com/v1/domains/example.com/records/7/destroy?client_id=id&api_key=key"
                    (http.mkResponse (ioutil.mkReader Canned.errorBody None))
                    (DOResp.mk "ERROR" tt "gone")
                    eq_refl eq_refl eq_refl eq_refl eq_refl)
             "example.com" eq_refl).
Defined.

(** X18 at a listing of two droplets. *)
Lemma GetAllDroplets_follows_envelope_witness :
  outcome (GetAllDroplets (Canned.respond Canned.okBody)
             (json_droplets :=
                Canned.always (DOResp.mk "OK" [Canned.foo; zero] ""))
             Canned.client)
  = Returns ([Canned.foo; zero], None).
Proof.
  apply (proj1 (GetAllDroplets_follows_envelope
                  (Canned.respond Canned.okBody)
                  (json_droplets :=
                     Canned.always (DOResp.mk "OK" [Canned.foo; zero] ""))
                  Canned.client
                  (http.mkResponse (ioutil.mkReader Canned.okBody None))
                  (DOResp.mk "OK" [Canned.foo; zero] "")
                  eq_refl eq_refl eq_refl)).
  discriminate.
Defined.

(** X19 at an update that the server refuses. *)
Lemma UpdateRecordByDomain_follows_envelope_witness :
  outcome (UpdateRecordByDomain (Canned.respond Canned.errorBody)
             (json_record :=
                Canned.always (DOResp.mk "ERROR" zero "not found"))
             Canned.client (VString "example.com") Canned.record)
  = Returns (None,
             Some (errorString
                     "could not create record 5 for domain example.com: not found")).
Proof.
  apply (proj2 (UpdateRecordByDomain_follows_envelope
                  (Canned.respond Canned.errorBody)
                  (json_record :=
                     Canned.always (DOResp.mk "ERROR" zero "not found"))
                  Canned.client (VString "example.com") Canned.record
                  "https://api.digitalocean.com/v1/domains/example.com/records/new?record_type=%!s(int=5)&data=A%!(EXTRA string=1.2.3.4)&client_id=id&api_key=key"
                  (http.mkResponse (ioutil.mkReader Canned.errorBody None))
                  (DOResp.mk "ERROR" zero "not found")
                  eq_refl eq_refl eq_refl eq_refl)).
  reflexivity.
Defined.

(** X20 at a creation that the server accepts. *)
Lemma CreateDroplet_follows_envelope_witness :
  outcome (CreateDroplet (Canned.respond Canned.okBody)
             (json_partial_droplet :=
                Canned.always
                  (DOResp.mk "OK" (PartialDroplet.mk 9 "web" 0 66 1234) ""))
             Canned.client Canned.droplet)
  = Returns (Some (PartialDroplet.mk 9 "web" 0 66 1234), None).
Proof.
  apply (proj1 (CreateDroplet_follows_envelope
                  (Canned.respond Canned.okBody)
                  (json_partial_droplet :=
                     Canned.always
                       (DOResp.mk "OK" (PartialDroplet.mk 9 "web" 0 66 1234)
                          ""))
                  Canned.client Canned.droplet
                  "https://api.digitalocean.com/v1/droplets/new?name=web&size_id=66&image_slug=ubuntu&region_id=1&client_id=id&api_key=key"
                  (http.mkResponse (ioutil.mkReader Canned.okBody None))
                  (DOResp.mk "OK" (PartialDroplet.mk 9 "web" 0 66 1234) "")
                  eq_refl eq_refl eq_refl eq_refl)).
  discriminate.
Defined.
